(** * demesdraw: the horizon estimator and the size-history renderer

    A shallow embedding of [demesdraw/utils.py] ([inf_start_time]) and of
    [demesdraw/size_history.py] ([size_history]).

    Numbers.  The program computes with floating-point numbers; here a finite
    float is a real number and the float [inf] is a value of its own
    ([Infinity]).  Rounding is not modelled.  An operation whose result is not
    a real number is a failure: Python's [/] raises [ZeroDivisionError] on a
    zero divisor, and numpy's [log] and [/] leave the reals on such arguments
    (numpy warns and yields an infinity or a nan), which is [NotFinite] here.

    Where Python would carry such a value on, the embedding stops: what is
    proved of a result holds for runs all of whose values are real numbers.

    Data.  The graph is an object of the [demes] library: every deme has at
    least one epoch, and the end time of an epoch is finite.  The number of
    points [num_exp_points] is a natural number.

    Drawing.  The matplotlib axes is the sequence of calls issued to it, in
    order; a run yields its outcome together with the calls issued so far,
    which remain when an exception is raised.  Creating the figure when no
    axes is passed (lines 49 to 51) issues no call. *)

From Stdlib Require Import Reals Lra Lia List String Ascii ZArith Bool.
From Stdlib Require Import DecimalString.
Import ListNotations.

Open Scope string_scope.
Open Scope R_scope.

(** ** The data model (the [demes] objects the program reads) *)

(** A float that holds a time: finite, or the float [inf]. *)
Inductive time : Type :=
| Finite (t : R)
| Infinity.

(** [np.isinf]. *)
Definition isinf (t : time) : bool :=
  match t with
  | Finite _ => false
  | Infinity => true
  end.

(** An epoch.  Its end time is finite (it lies before the start time). *)
Record Epoch : Type := mkEpoch {
  start_time : time;
  end_time : R;
  start_size : R;
  end_size : R;
  size_function : string
}.

(** A deme.  A deme of [demes] has at least one epoch: [deme.epochs] is
    [epoch0 :: later_epochs], and [deme.epochs[0]] is [epoch0].  The renderer
    reads [deme.start_time] besides the start time of the first epoch;
    nothing here depends on the two agreeing. *)
Record Deme : Type := mkDeme {
  deme_id : string;
  deme_start_time : time;
  epoch0 : Epoch;
  later_epochs : list Epoch;
  ancestors : list string
}.

Definition epochs (d : Deme) : list Epoch := epoch0 d :: later_epochs d.

Record Graph : Type := mkGraph {
  demes : list Deme;
  time_units : string
}.

(** ** Exceptions and results *)

Inductive exn : Type :=
| ValueError (msg : string)
| ZeroDivisionError
| KeyError (key : string)
| IndexError
| NotFinite.

Inductive result (A : Type) : Type :=
| Ok (a : A)
| Err (e : exn).

Arguments Ok {A} a.
Arguments Err {A} e.

Definition rbind {A B : Type} (m : result A) (f : A -> result B) : result B :=
  match m with
  | Ok a => f a
  | Err e => Err e
  end.

Declare Scope result_scope.
Delimit Scope result_scope with res.
Notation "x <- m ;; k" := (rbind m (fun x => k))
  (at level 61, m at next level, right associativity) : result_scope.
Open Scope result_scope.

(** ** Arithmetic *)

(** The comparison [x == y] of two floats. *)
Definition Reqb (x y : R) : bool := if Req_dec_T x y then true else false.

(** Python's [x / y]. *)
Definition py_div (x y : R) : result R :=
  if Reqb y 0 then Err ZeroDivisionError else Ok (x / y).

(** numpy's [x / y] on its own scalars: no exception, but no real number
    either when [y] is zero. *)
Definition np_div (x y : R) : result R :=
  if Reqb y 0 then Err NotFinite else Ok (x / y).

(** [np.log]: a real number on positive arguments only. *)
Definition np_log (x : R) : result R :=
  if Rlt_dec 0 x then Ok (ln x) else Err NotFinite.

(** Python's [max] of a list. *)
Definition py_max (l : list R) : result R :=
  match l with
  | [] => Err (ValueError "max() arg is an empty sequence")
  | x :: xs => Ok (fold_left Rmax xs x)
  end.

(** ** utils.py *)

(** The list [epoch0_times] that the loop of [inf_start_time] builds. *)
Definition epoch0_times (g : Graph) : list R :=
  flat_map
    (fun deme =>
       end_time (epoch0 deme)
         :: match start_time (epoch0 deme) with
            | Finite t => [t]
            | Infinity => []
            end)
    (demes g).

Definition inf_start_time (g : Graph) (inf_ratio : R) (log_scale : bool)
  : result R :=
  oldest_noninf_time <- py_max (epoch0_times g) ;;
  if Reqb oldest_noninf_time 0 then Ok 113
  else if log_scale then
    l <- np_log oldest_noninf_time ;;
    q <- np_div l (1 - inf_ratio) ;;
    Ok (exp q)
  else py_div oldest_noninf_time (1 - inf_ratio).

(** ** The plotting surface *)

(** A colour map is known by its name; [cmap(j)] is its [j]-th colour. *)
Definition Colormap : Type := string.

Definition get_cmap (name : string) : Colormap := name.

Inductive Colour : Type :=
| cmap_colour (cmap : Colormap) (j : nat)
| named_colour (name : string).

(** The keyword arguments of a line ([plot_kwargs], [discontinuity_kwargs]). *)
Record LineKwargs : Type := mkLineKwargs {
  color : Colour;
  linestyle : string;
  linewidth : Z;
  label : option string;
  alpha : R;
  zorder : Z;
  solid_capstyle : string
}.

(** The calls [size_history] issues to the axes. *)
Inductive DrawCall : Type :=
| plot (x : list time) (y : list R) (kwargs : LineKwargs)
| plot_marker (x y : R) (fmt : string) (colour : Colour) (z : Z)
| annotate (text : string) (xy : R * R) (xytext : R * R) (ha va : string)
    (colour : option Colour)
| legend (handles : list LineKwargs) (ncol : nat) (z : Z)
| set_title (text : string)
| set_xlim (left right : R)
| spine_set_visible (spine : string) (visible : bool)
| invert_xaxis
| yaxis_tick_right
| yaxis_set_label_position (position : string)
| set_xlabel (text : string)
| set_ylabel (text : string)
| set_xscale (scale : string) (base : Z)
| set_yscale (scale : string) (base : Z)
| tight_layout.

(** A drawing computation: its outcome and the calls it issued. *)
Definition Draw (A : Type) : Type := (result A * list DrawCall)%type.

Definition dret {A : Type} (a : A) : Draw A := (Ok a, []).

Definition dbind {A B : Type} (m : Draw A) (f : A -> Draw B) : Draw B :=
  match m with
  | (Ok a, w) => let (r, w') := f a in (r, (w ++ w')%list)
  | (Err e, w) => (Err e, w)
  end.

Definition lift {A : Type} (r : result A) : Draw A := (r, []).

Definition emit (c : DrawCall) : Draw unit := (Ok tt, [c]).

Definition outcome {A : Type} (m : Draw A) : result A := fst m.

Definition calls {A : Type} (m : Draw A) : list DrawCall := snd m.

Declare Scope draw_scope.
Delimit Scope draw_scope with draw.
Notation "x <- m ;; k" := (dbind m (fun x => k))
  (at level 61, m at next level, right associativity) : draw_scope.
Notation "m ;; k" := (dbind m (fun _ => k))
  (at level 61, right associativity) : draw_scope.

(** [for k, x in enumerate(l)], counting from [k]. *)
Fixpoint for_enumerate {A : Type} (body : nat -> A -> Draw unit) (k : nat)
  (l : list A) : Draw unit :=
  match l with
  | [] => dret tt
  | x :: xs => (body k x ;; for_enumerate body (S k) xs)%draw
  end.

(** [for x in l]. *)
Fixpoint for_each {A : Type} (body : A -> Draw unit) (l : list A)
  : Draw unit :=
  match l with
  | [] => dret tt
  | x :: xs => (body x ;; for_each body xs)%draw
  end.

(** ** Library functions *)

(** [np.linspace(a, b, num=n)]: [n] evenly spaced samples from [a] to [b]. *)
Definition linspace (a b : R) (n : nat) : list R :=
  map (fun i => a + INR i * ((b - a) / INR (n - 1))) (seq 0 n).

(** [l[i]]. *)
Definition getitem {A : Type} (l : list A) (i : nat) : result A :=
  match nth_error l i with
  | Some x => Ok x
  | None => Err IndexError
  end.

(** [graph[deme_id]]. *)
Definition graph_getitem (g : Graph) (key : string) : result Deme :=
  match find (fun d => String.eqb (deme_id d) key) (demes g) with
  | Some d => Ok d
  | None => Err (KeyError key)
  end.

(** The decimal numeral of [k], as an f-string prints it. *)
Definition str_of_nat (k : nat) : string :=
  NilEmpty.string_of_uint (Nat.to_uint k).

(** The one-character string holding a line feed. *)
Definition newline : string := String (ascii_of_nat 10) EmptyString.

(** The one-character string holding a double quote. *)
Definition dquote : string := String (ascii_of_nat 34) EmptyString.

(** ** size_history.py *)

Record Options : Type := mkOptions {
  inf_ratio : R;
  inf_label : bool;
  invert_x : bool;
  num_exp_points : nat;
  annotate_epochs : bool;
  cmap : option Colormap;
  log_x : bool;
  log_y : bool;
  title : option string
}.

(** The defaults of the keyword arguments. *)
Definition default_options : Options :=
  {| inf_ratio := 1 / 10; inf_label := false; invert_x := false;
     num_exp_points := 100; annotate_epochs := false; cmap := None;
     log_x := false; log_y := false; title := None |}.

Definition linestyles : list string := ["solid"].

Definition linewidths : list Z := [2; 4; 8; 1]%Z.

(** The colour map chosen when none is given (lines 58 to 66). *)
Definition choose_cmap (o : Options) (g : Graph) : result Colormap :=
  match cmap o with
  | Some c => Ok c
  | None =>
      if (List.length (demes g) <=? 10)%nat then Ok (get_cmap "tab10")
      else if (List.length (demes g) <=? 20)%nat then Ok (get_cmap "tab20")
      else Err (ValueError
        "Graph has more than 20 demes, so cmap must be specified. Good luck!")
  end.

(** The top of the z order stacking (line 74). *)
Definition z_top (g : Graph) : Z :=
  (1 + Z.of_nat (List.length (demes g)) + fold_left Z.max linewidths 0)%Z.

Definition deme_linewidth (j : nat) : Z :=
  nth (j mod List.length linewidths) linewidths 0%Z.

Definition plot_kwargs_of (g : Graph) (cm : Colormap) (j : nat) (deme : Deme)
  : LineKwargs :=
  {| color := cmap_colour cm j;
     linestyle := nth (j mod List.length linestyles) linestyles "";
     linewidth := deme_linewidth j;
     label := Some (deme_id deme);
     alpha := 7 / 10;
     zorder := (z_top g - deme_linewidth j)%Z;
     solid_capstyle := "butt" |}.

Definition discontinuity_kwargs_of (g : Graph) (cm : Colormap) (j : nat)
  : LineKwargs :=
  {| color := cmap_colour cm j;
     linestyle := ":";
     linewidth := deme_linewidth j;
     label := None;
     alpha := 7 / 10;
     zorder := (z_top g - deme_linewidth j)%Z;
     solid_capstyle := "butt" |}.

(** The message of the error for an epoch that cannot be plotted. *)
Definition unknown_size_function_msg (k : nat) (epoch : Epoch) : string :=
  "Don't know how to plot epoch " ++ str_of_nat k ++ " with "
    ++ dquote ++ size_function epoch ++ dquote ++ " size_function.".

(** The local [start_time] of the epoch loop (lines 100 to 102). *)
Definition plot_start_time (inf_t : R) (epoch : Epoch) : R :=
  match start_time epoch with
  | Infinity => inf_t
  | Finite t => t
  end.

(** The local [end_time] of the epoch loop (lines 103 to 105). *)
Definition plot_end_time (o : Options) (epoch : Epoch) : R :=
  if Reqb (end_time epoch) 0 && log_x o then 1 else end_time epoch.

(** The rate [r] of an exponential epoch (line 113). *)
Definition exp_rate (epoch : Epoch) : result R :=
  (q <- py_div (end_size epoch) (start_size epoch) ;; np_log q).

(** The size at normalized progress [dt] (line 114). *)
Definition exp_size (epoch : Epoch) (r dt : R) : R :=
  start_size epoch * exp (r * dt).

(** The coordinates [x], [y] of an epoch (lines 107 to 119). *)
Definition epoch_xy (o : Options) (inf_t : R) (k : nat) (epoch : Epoch)
  : result (list R * list R) :=
  let start_time := plot_start_time inf_t epoch in
  let end_time := plot_end_time o epoch in
  if size_function epoch =? "constant" then
    Ok ([start_time; end_time], [start_size epoch; end_size epoch])
  else if size_function epoch =? "exponential" then
    let x := linspace start_time end_time (num_exp_points o) in
    let dt := linspace 0 1 (num_exp_points o) in
    r <- exp_rate epoch ;;
    Ok (x, map (exp_size epoch r) dt)
  else Err (ValueError (unknown_size_function_msg k epoch)).

(** The dotted connector between epoch [k - 1] and epoch [k] (lines 122 to
    128). *)
Definition plot_discontinuity (deme : Deme) (discontinuity_kwargs : LineKwargs)
  (k : nat) (epoch : Epoch) : Draw unit :=
  if (0 <? k)%nat then
    (prev <- lift (getitem (epochs deme) (k - 1)) ;;
     if negb (Reqb (end_size prev) (start_size epoch)) then
       emit (plot [Finite (end_time prev); start_time epoch]
                  [end_size prev; start_size epoch] discontinuity_kwargs)
     else dret tt)%draw
  else dret tt.

(** The label of an epoch (lines 130 to 155). *)
Definition annotate_epoch (o : Options) (g : Graph) (inf_t : R)
  (colour : Colour) (linewidth : Z) (k : nat) (epoch : Epoch) : Draw unit :=
  let start_time := plot_start_time inf_t epoch in
  let end_time := plot_end_time o epoch in
  (text_x <- lift
     (if log_x o then
        (a <- np_log start_time ;; b <- np_log end_time ;;
         Ok (exp ((a + b) / 2)))%res
      else Ok ((start_time + end_time) / 2)) ;;
   text_y <- lift
     (if log_y o then
        (a <- np_log (1 + start_size epoch) ;;
         b <- np_log (1 + end_size epoch) ;;
         Ok (exp ((a + b) / 2)))%res
      else Ok ((start_size epoch + end_size epoch) / 2)) ;;
   emit (annotate ("epoch " ++ str_of_nat k) (text_x, text_y)
           (0, 4 + IZR linewidth / 2) "center" "bottom"
           (Some (if (List.length (demes g) =? 1)%nat then named_colour "black"
                  else colour))))%draw.

(** One turn of the loop over the epochs of deme [j] (lines 99 to 155). *)
Definition plot_epoch (o : Options) (g : Graph) (cm : Colormap) (inf_t : R)
  (j : nat) (deme : Deme) (k : nat) (epoch : Epoch) : Draw unit :=
  let colour := cmap_colour cm j in
  let plot_kwargs := plot_kwargs_of g cm j deme in
  let discontinuity_kwargs := discontinuity_kwargs_of g cm j in
  (xy <- lift (epoch_xy o inf_t k epoch) ;;
   emit (plot (map Finite (fst xy)) (snd xy) plot_kwargs) ;;
   plot_discontinuity deme discontinuity_kwargs k epoch ;;
   if annotate_epochs o then
     annotate_epoch o g inf_t colour (deme_linewidth j) k epoch
   else dret tt)%draw.

(** The arrow, and its label, of a deme that starts at infinity (lines 157
    to 177). *)
Definition plot_inf_arrow (o : Options) (g : Graph) (inf_t : R)
  (colour : Colour) (deme : Deme) : Draw unit :=
  if isinf (deme_start_time deme) then
    (emit (plot_marker inf_t (start_size (epoch0 deme))
             (if invert_x o then "<k" else ">k") colour (z_top g)) ;;
     if inf_label o then
       emit (annotate "inf" (inf_t, start_size (epoch0 deme)) (0, -6)
               "center" "top" None)
     else dret tt)%draw
  else dret tt.

Section Renderer.

(** [utils.size_of_deme_at_time], which [size_history] calls for the size of
    an ancestor: its code is not among the files at hand, so the renderer is
    defined, and verified, for any such function. *)
Variable size_of_deme_at_time : Deme -> time -> result R.

(** The connectors to the ancestors of a deme (lines 180 to 189). *)
Definition plot_ancestors (g : Graph) (discontinuity_kwargs : LineKwargs)
  (deme : Deme) : Draw unit :=
  for_each
    (fun ancestor_id =>
       (anc <- lift (graph_getitem g ancestor_id) ;;
        anc_N <- lift (size_of_deme_at_time anc (deme_start_time deme)) ;;
        let deme_N := start_size (epoch0 deme) in
        if negb (Reqb anc_N deme_N) then
          emit (plot [deme_start_time deme; deme_start_time deme]
                     [anc_N; deme_N] discontinuity_kwargs)
        else dret tt)%draw)
    (ancestors deme).

(** One turn of the loop over the demes (lines 76 to 189). *)
Definition plot_deme (o : Options) (g : Graph) (cm : Colormap) (inf_t : R)
  (j : nat) (deme : Deme) : Draw unit :=
  let colour := cmap_colour cm j in
  let discontinuity_kwargs := discontinuity_kwargs_of g cm j in
  (for_enumerate (plot_epoch o g cm inf_t j deme) 0 (epochs deme) ;;
   plot_inf_arrow o g inf_t colour deme ;;
   plot_ancestors g discontinuity_kwargs deme)%draw.

(** The handles of the legend, one per deme (line 97). *)
Definition legend_handles (g : Graph) (cm : Colormap) : list LineKwargs :=
  map (fun jd => plot_kwargs_of g cm (fst jd) (snd jd))
      (combine (seq 0 (List.length (demes g))) (demes g)).

(** The legend, the title and the axes (lines 191 to 221). *)
Definition arrange_axes (o : Options) (g : Graph) (cm : Colormap) (inf_t : R)
  : Draw unit :=
  ((if (1 <? List.length (demes g))%nat then
      emit (legend (legend_handles g cm) (List.length (demes g) / 2) (z_top g))
    else dret tt) ;;
   match title o with
   | Some t => emit (set_title t)
   | None => dret tt
   end ;;
   emit (set_xlim (if log_x o then 1 else 0) inf_t) ;;
   emit (spine_set_visible "top" false) ;;
   (if invert_x o then
      (emit (spine_set_visible "left" false) ;;
       emit invert_xaxis ;;
       emit yaxis_tick_right ;;
       emit (yaxis_set_label_position "right"))
    else emit (spine_set_visible "right" false)) ;;
   emit (set_xlabel ("time ago (" ++ time_units g ++ ")")) ;;
   emit (set_ylabel ("deme" ++ newline ++ "size")) ;;
   (if log_x o then emit (set_xscale "log" 10) else dret tt) ;;
   (if log_y o then emit (set_yscale "log" 10) else dret tt) ;;
   emit tight_layout)%draw.

(** Everything after the choice of the colour map (lines 68 to 222). *)
Definition draw_with (o : Options) (g : Graph) (cm : Colormap) : Draw unit :=
  (inf_t <- lift (inf_start_time g (inf_ratio o) (log_x o)) ;;
   for_enumerate (plot_deme o g cm inf_t) 0 (demes g) ;;
   arrange_axes o g cm inf_t)%draw.

Definition size_history (o : Options) (g : Graph) : Draw unit :=
  (cm <- lift (choose_cmap o g) ;; draw_with o g cm)%draw.

End Renderer.

(** ** What the properties speak of *)

(** [t] is one of the times the loop collects: the end time of the first
    epoch of a deme, or its start time when that is finite. *)
Definition first_epoch_time (g : Graph) (t : R) : Prop :=
  exists deme, In deme (demes g) /\
    (t = end_time (epoch0 deme) \/ start_time (epoch0 deme) = Finite t).

(** The dotted connector between two consecutive epochs of deme [j]: from
    the end of [prev] to the start of [epoch]. *)
Definition connector (g : Graph) (cm : Colormap) (j : nat)
  (prev epoch : Epoch) : DrawCall :=
  plot [Finite (end_time prev); start_time epoch]
       [end_size prev; start_size epoch] (discontinuity_kwargs_of g cm j).

(** ** Sample graphs *)

(** An epoch of constant size 1000 that starts at infinity and ends at
    [t]. *)
Definition root_epoch (t : R) : Epoch :=
  {| start_time := Infinity; end_time := t; start_size := 1000;
     end_size := 1000; size_function := "constant" |}.

(** A deme without ancestors that has this epoch only. *)
Definition root_deme (name : string) (t : R) : Deme :=
  {| deme_id := name; deme_start_time := Infinity; epoch0 := root_epoch t;
     later_epochs := []; ancestors := [] |}.

(** The graph of one such deme. *)
Definition root_graph (t : R) : Graph :=
  {| demes := [root_deme "A" t]; time_units := "generations" |}.

(** The graph with no deme. *)
Definition empty_graph : Graph :=
  {| demes := []; time_units := "generations" |}.

(** An epoch from time 100 to time 0, of the given sizes and size function. *)
Definition recent_epoch (n0 n1 : R) (f : string) : Epoch :=
  {| start_time := Finite 100; end_time := 0; start_size := n0;
     end_size := n1; size_function := f |}.

(** A deme of two epochs: constant size 1000 until time 100, then [e]. *)
Definition two_epoch_deme (e : Epoch) : Deme :=
  {| deme_id := "YRI"; deme_start_time := Infinity; epoch0 := root_epoch 100;
     later_epochs := [e]; ancestors := [] |}.

Definition two_epoch_graph (e : Epoch) : Graph :=
  {| demes := [two_epoch_deme e]; time_units := "generations" |}.

(** Twenty-five root demes. *)
Definition many_demes_graph : Graph :=
  {| demes := repeat (root_deme "A" 0) 25; time_units := "generations" |}.

(** A size helper for demes of constant size. *)
Definition constant_size_of_deme_at_time (deme : Deme) (t : time) : result R :=
  Ok (start_size (epoch0 deme)).

(** The default options, with a logarithmic time axis. *)
Definition log_x_options : Options :=
  {| inf_ratio := 1 / 10; inf_label := false; invert_x := false;
     num_exp_points := 100; annotate_epochs := false; cmap := None;
     log_x := true; log_y := false; title := None |}.

(** ** What the further properties speak of *)

(** A drawing computation that ends without an exception. *)
Definition completes (m : Draw unit) : Prop :=
  exists w, m = (Ok tt, w).

(** The number of calls of a kind among the calls issued. *)
Definition count_calls (kind : DrawCall -> bool) (w : list DrawCall) : nat :=
  List.length (filter kind w).

(** A line drawn solid: the line of an epoch. *)
Definition is_solid_line (c : DrawCall) : bool :=
  match c with
  | plot _ _ kwargs => linestyle kwargs =? "solid"
  | _ => false
  end.

(** A marker: the arrowhead of a deme that starts at infinity. *)
Definition is_marker (c : DrawCall) : bool :=
  match c with
  | plot_marker _ _ _ _ _ => true
  | _ => false
  end.

(** The number of epochs of a graph, all demes together. *)
Definition epoch_count (g : Graph) : nat :=
  list_sum (map (fun deme => List.length (epochs deme)) (demes g)).

(** The number of demes that start at infinity. *)
Definition root_count (g : Graph) : nat :=
  List.length (filter (fun deme => isinf (deme_start_time deme)) (demes g)).

(** An epoch as [demes] hands it over: a size function the renderer knows,
    positive sizes, an end time that is not negative and a start time that
    is positive. *)
Definition valid_epoch (epoch : Epoch) : Prop :=
  (size_function epoch = "constant" \/ size_function epoch = "exponential") /\
  0 < start_size epoch /\ 0 < end_size epoch /\
  0 <= end_time epoch /\
  (forall t, start_time epoch = Finite t -> 0 < t).

(** Two graphs, one a rearrangement of the other with a deme repeated. *)
Definition mixed_graph : Graph :=
  {| demes := [root_deme "A" 100; root_deme "B" 0];
     time_units := "generations" |}.

Definition mixed_graph' : Graph :=
  {| demes := [root_deme "B" 0; root_deme "C" 100; root_deme "A" 100];
     time_units := "years" |}.

(** The ancestors of the deme are demes of the graph, and the size helper
    has an answer for each at the start time of the deme. *)
Definition ancestors_resolve
  (size_of_deme_at_time : Deme -> time -> result R) (g : Graph) (deme : Deme)
  : Prop :=
  forall a, In a (ancestors deme) ->
    exists anc anc_N, graph_getitem g a = Ok anc /\
      size_of_deme_at_time anc (deme_start_time deme) = Ok anc_N.

(** A call that arranges the axes: neither a line, nor a marker, nor a
    label. *)
Definition is_axes_call (c : DrawCall) : bool :=
  match c with
  | plot _ _ _ | plot_marker _ _ _ _ _ | annotate _ _ _ _ _ _ => false
  | _ => true
  end.

(** The calls that arrange the axes, as a list. *)
Definition axes_calls (o : Options) (g : Graph) (cm : Colormap) (inf_t : R)
  : list DrawCall :=
  ((if (1 <? List.length (demes g))%nat then
      [legend (legend_handles g cm) (List.length (demes g) / 2) (z_top g)]
    else [])
   ++ match title o with
      | Some t => [set_title t]
      | None => []
      end
   ++ [set_xlim (if log_x o then 1 else 0) inf_t;
       spine_set_visible "top" false]
   ++ (if invert_x o then
         [spine_set_visible "left" false; invert_xaxis; yaxis_tick_right;
          yaxis_set_label_position "right"]
       else [spine_set_visible "right" false])
   ++ [set_xlabel ("time ago (" ++ time_units g ++ ")");
       set_ylabel ("deme" ++ newline ++ "size")]
   ++ (if log_x o then [set_xscale "log" 10] else [])
   ++ (if log_y o then [set_yscale "log" 10] else [])
   ++ [tight_layout])%list.

(** A deme of constant size 500 that splits off "YRI" at time 50. *)
Definition child_deme : Deme :=
  {| deme_id := "CEU"; deme_start_time := Finite 50;
     epoch0 := {| start_time := Finite 50; end_time := 0; start_size := 500;
                  end_size := 500; size_function := "constant" |};
     later_epochs := []; ancestors := ["YRI"] |}.

(** "YRI", growing in its second epoch, and the deme that splits off it. *)
Definition family_graph : Graph :=
  {| demes := [two_epoch_deme (recent_epoch 1000 2000 "exponential");
               child_deme];
     time_units := "generations" |}.

(** A graph whose deme names an ancestor that is not in it. *)
Definition orphan_graph : Graph :=
  {| demes := [child_deme]; time_units := "generations" |}.

(** Two root demes of constant size. *)
Definition pair_graph : Graph :=
  {| demes := [root_deme "A" 0; root_deme "B" 0];
     time_units := "generations" |}.

(** The calls of a run on [pair_graph] with the default options. *)
Definition pair_graph_calls : list DrawCall :=
  [plot [Finite 113; Finite 0] [1000; 1000]
     (plot_kwargs_of pair_graph "tab10" 0 (root_deme "A" 0));
   plot_marker 113 1000 ">k" (cmap_colour "tab10" 0) 11;
   plot [Finite 113; Finite 0] [1000; 1000]
     (plot_kwargs_of pair_graph "tab10" 1 (root_deme "B" 0));
   plot_marker 113 1000 ">k" (cmap_colour "tab10" 1) 11;
   legend (legend_handles pair_graph "tab10") 1 11;
   set_xlim 0 113;
   spine_set_visible "top" false;
   spine_set_visible "right" false;
   set_xlabel "time ago (generations)";
   set_ylabel ("deme" ++ newline ++ "size");
   tight_layout].

(** * Properties *)

(** ** Arithmetic and the result type *)

Lemma Reqb_eq (x y : R) : Reqb x y = true <-> x = y.
Proof.
  unfold Reqb. destruct (Req_dec_T x y) as [E | N]; split; intro H;
    try reflexivity; try assumption; try discriminate.
  contradiction.
Qed.

Lemma Reqb_neq (x y : R) : Reqb x y = false <-> x <> y.
Proof.
  unfold Reqb. destruct (Req_dec_T x y) as [E | N]; split; intro H;
    try reflexivity; try assumption; try discriminate.
  contradiction.
Qed.

Lemma Reqb_refl (x : R) : Reqb x x = true.
Proof. apply Reqb_eq. reflexivity. Qed.

Lemma py_div_ok (x y : R) : y <> 0 -> py_div x y = Ok (x / y).
Proof.
  intro H. unfold py_div. apply Reqb_neq in H. rewrite H. reflexivity.
Qed.

Lemma py_div_zero (x : R) : py_div x 0 = Err ZeroDivisionError.
Proof. unfold py_div. rewrite Reqb_refl. reflexivity. Qed.

Lemma np_div_ok (x y : R) : y <> 0 -> np_div x y = Ok (x / y).
Proof.
  intro H. unfold np_div. apply Reqb_neq in H. rewrite H. reflexivity.
Qed.

Lemma np_log_pos (x : R) : 0 < x -> np_log x = Ok (ln x).
Proof.
  intro H. unfold np_log. destruct (Rlt_dec 0 x); [reflexivity | contradiction].
Qed.

Lemma np_log_nonpos (x : R) : x <= 0 -> np_log x = Err NotFinite.
Proof.
  intro H. unfold np_log. destruct (Rlt_dec 0 x); [lra | reflexivity].
Qed.

(** ** The maximum of a list *)

Lemma fold_left_Rmax_ge (xs : list R) (x : R) :
  x <= fold_left Rmax xs x /\ Forall (fun y => y <= fold_left Rmax xs x) xs.
Proof.
  revert x. induction xs as [| a xs IH]; intro x; simpl.
  - split; [lra | constructor].
  - destruct (IH (Rmax x a)) as [H1 H2]. split.
    + apply Rle_trans with (Rmax x a); [apply Rmax_l | exact H1].
    + constructor; [| exact H2].
      apply Rle_trans with (Rmax x a); [apply Rmax_r | exact H1].
Qed.

Lemma fold_left_Rmax_In (xs : list R) (x : R) :
  In (fold_left Rmax xs x) (x :: xs).
Proof.
  revert x. induction xs as [| a xs IH]; intro x; simpl.
  - left. reflexivity.
  - destruct (Rle_dec x a) as [L | L].
    + rewrite (Rmax_right x a L).
      destruct (IH a) as [H | H]; [right; left; exact H | right; right; exact H].
    + rewrite (Rmax_left x a) by lra.
      destruct (IH x) as [H | H]; [left; exact H | right; right; exact H].
Qed.

Lemma py_max_spec (l : list R) (T : R) :
  py_max l = Ok T -> In T l /\ forall t, In t l -> t <= T.
Proof.
  destruct l as [| x xs]; simpl; intro H; [discriminate |].
  injection H as <-. split.
  - apply fold_left_Rmax_In.
  - intros t [<- | Ht].
    + apply fold_left_Rmax_ge.
    + destruct (fold_left_Rmax_ge xs x) as [_ HF].
      rewrite Forall_forall in HF. apply HF. exact Ht.
Qed.

Lemma py_max_nonempty (l : list R) :
  l <> [] -> exists T, py_max l = Ok T.
Proof.
  destruct l as [| x xs]; intro H; [contradiction |].
  eexists. reflexivity.
Qed.

(** ** The horizon estimator *)

Lemma In_epoch0_times (g : Graph) (t : R) :
  In t (epoch0_times g) <-> first_epoch_time g t.
Proof.
  unfold epoch0_times, first_epoch_time. rewrite in_flat_map.
  split; intros [d [Hd H]]; exists d; (split; [exact Hd |]).
  - destruct H as [H | H]; [left; symmetry; exact H |].
    destruct (start_time (epoch0 d)) as [s |]; simpl in H.
    + destruct H as [H | []]. right. rewrite H. reflexivity.
    + contradiction.
  - destruct H as [H | H]; [left; symmetry; exact H |].
    right. rewrite H. left. reflexivity.
Qed.

Lemma epoch0_times_nonempty (g : Graph) :
  demes g <> [] -> epoch0_times g <> [].
Proof.
  unfold epoch0_times. destruct (demes g) as [| d ds]; intro H;
    [contradiction | simpl; discriminate].
Qed.

Lemma inf_start_time_unfold (g : Graph) (r : R) (ls : bool) (T : R) :
  py_max (epoch0_times g) = Ok T ->
  inf_start_time g r ls =
    if Reqb T 0 then Ok 113
    else if ls then
      (l <- np_log T ;; q <- np_div l (1 - r) ;; Ok (exp q))
    else py_div T (1 - r).
Proof. intro H. unfold inf_start_time. rewrite H. reflexivity. Qed.

Lemma inf_start_time_zero (g : Graph) (r : R) (ls : bool) :
  py_max (epoch0_times g) = Ok 0 -> inf_start_time g r ls = Ok 113.
Proof.
  intro H. rewrite (inf_start_time_unfold _ _ _ _ H), Reqb_refl. reflexivity.
Qed.

Lemma inf_start_time_linear (g : Graph) (r T : R) :
  py_max (epoch0_times g) = Ok T -> T <> 0 -> r <> 1 ->
  inf_start_time g r false = Ok (T / (1 - r)).
Proof.
  intros H HT Hr. rewrite (inf_start_time_unfold _ _ _ _ H).
  apply Reqb_neq in HT. rewrite HT. apply py_div_ok. lra.
Qed.

Lemma inf_start_time_log (g : Graph) (r T : R) :
  py_max (epoch0_times g) = Ok T -> 0 < T -> r <> 1 ->
  inf_start_time g r true = Ok (exp (ln T / (1 - r))).
Proof.
  intros H HT Hr. rewrite (inf_start_time_unfold _ _ _ _ H).
  assert (HT0 : T <> 0) by lra. apply Reqb_neq in HT0. rewrite HT0.
  rewrite (np_log_pos _ HT). simpl. rewrite np_div_ok by lra. reflexivity.
Qed.

(** C1.  For a graph with at least one deme, [inf_start_time] takes the
    maximum [T] of the first-epoch end times and the finite first-epoch start
    times of the demes.  It returns 113 when [T] is zero; [T / (1 - inf_ratio)]
    when [T] is not zero on a linear axis; [exp (ln T / (1 - inf_ratio))] when
    [T] is not zero on a logarithmic axis.  (The two quotients are taken where
    they are defined: [inf_ratio] is not 1, and the logarithm is of a positive
    [T].) *)
Theorem inf_start_time_spec (g : Graph) (inf_ratio : R) (log_scale : bool) :
  demes g <> [] ->
  exists T,
    py_max (epoch0_times g) = Ok T /\
    first_epoch_time g T /\
    (forall t, first_epoch_time g t -> t <= T) /\
    (T = 0 -> inf_start_time g inf_ratio log_scale = Ok 113) /\
    (T <> 0 -> inf_ratio <> 1 ->
       inf_start_time g inf_ratio false = Ok (T / (1 - inf_ratio))) /\
    (0 < T -> inf_ratio <> 1 ->
       inf_start_time g inf_ratio true = Ok (exp (ln T / (1 - inf_ratio)))).
Proof.
  intro Hne.
  destruct (py_max_nonempty _ (epoch0_times_nonempty g Hne)) as [T HT].
  exists T. destruct (py_max_spec _ _ HT) as [Hin Hmax].
  split; [exact HT |]. split; [apply In_epoch0_times; exact Hin |].
  split; [intros t Ht; apply Hmax, In_epoch0_times; exact Ht |].
  split; [| split].
  - intro H0. subst T. apply inf_start_time_zero. exact HT.
  - intros H0 Hr. apply inf_start_time_linear; assumption.
  - intros H0 Hr. apply inf_start_time_log; assumption.
Qed.

Lemma inf_start_time_spec_witness :
  exists T,
    py_max (epoch0_times (root_graph 0)) = Ok T /\
    first_epoch_time (root_graph 0) T /\
    (forall t, first_epoch_time (root_graph 0) t -> t <= T) /\
    (T = 0 -> inf_start_time (root_graph 0) (1 / 10) false = Ok 113) /\
    (T <> 0 -> 1 / 10 <> 1 ->
       inf_start_time (root_graph 0) (1 / 10) false = Ok (T / (1 - 1 / 10))) /\
    (0 < T -> 1 / 10 <> 1 ->
       inf_start_time (root_graph 0) (1 / 10) true
         = Ok (exp (ln T / (1 - 1 / 10)))).
Proof.
  apply (inf_start_time_spec (root_graph 0) (1 / 10) false).
  simpl. discriminate.
Defined.

(** The graph of one root deme of constant size whose epoch ends at time 0:
    the horizon is the constant 113. *)
Lemma inf_start_time_root_graph (r : R) (ls : bool) :
  inf_start_time (root_graph 0) r ls = Ok 113.
Proof. apply inf_start_time_zero. reflexivity. Qed.

(** When every deme is a root whose first epoch ends at time zero, the
    horizon is the constant 113, whatever the ratio and the axis. *)
Lemma inf_start_time_all_roots (g : Graph) (r : R) (ls : bool) :
  demes g <> [] ->
  (forall deme, In deme (demes g) ->
     end_time (epoch0 deme) = 0 /\ start_time (epoch0 deme) = Infinity) ->
  inf_start_time g r ls = Ok 113.
Proof.
  intros Hne Hall.
  destruct (py_max_nonempty _ (epoch0_times_nonempty g Hne)) as [T HT].
  destruct (py_max_spec _ _ HT) as [Hin _].
  apply In_epoch0_times in Hin. destruct Hin as [d [Hd Ht]].
  destruct (Hall d Hd) as [He Hs].
  assert (T = 0) by (destruct Ht as [Ht | Ht]; [lra | congruence]).
  subst T. apply inf_start_time_zero. exact HT.
Qed.

Lemma inf_start_time_all_roots_witness :
  inf_start_time many_demes_graph (1 / 10) true = Ok 113.
Proof.
  apply (inf_start_time_all_roots many_demes_graph (1 / 10) true).
  - simpl. discriminate.
  - intros deme H. simpl in H.
    repeat (destruct H as [<- | H]; [split; reflexivity |]). destruct H.
Defined.

(** ** The horizon lies beyond the oldest time *)

Lemma Rinv_one_minus_gt_1 (r : R) : 0 < r < 1 -> 1 < / (1 - r).
Proof.
  intro H. rewrite <- Rinv_1 at 1. apply Rinv_lt_contravar; lra.
Qed.

Lemma Rinv_one_minus_increasing (r r' : R) :
  r < r' < 1 -> / (1 - r) < / (1 - r').
Proof.
  intro H. apply Rinv_lt_contravar; [| lra].
  apply Rmult_lt_0_compat; lra.
Qed.

Lemma ln_gt_0 (T : R) : 1 < T -> 0 < ln T.
Proof. intro H. rewrite <- ln_1. apply ln_increasing; lra. Qed.

Lemma ln_le_0 (T : R) : 0 < T -> T <= 1 -> ln T <= 0.
Proof.
  intros H0 [H | H].
  - left. rewrite <- ln_1. apply ln_increasing; lra.
  - subst T. rewrite ln_1. lra.
Qed.

Lemma exp_le_compat (x y : R) : x <= y -> exp x <= exp y.
Proof.
  intros [H | H]; [left; apply exp_increasing; exact H | subst; lra].
Qed.

(** C2, as the code has it.  When the oldest finite time [T] is positive and
    the ratio [r] lies strictly between 0 and 1: on a linear axis the horizon
    is strictly greater than [T] and strictly increasing in [r]; on a
    logarithmic axis it is so when [T] is greater than 1, and it is at most
    [T] when [T] is at most 1: equal to [T] when [T] is 1, and strictly
    smaller than [T] when [T] is smaller than 1. *)
Theorem inf_start_time_beyond (g : Graph) (T r : R) :
  py_max (epoch0_times g) = Ok T -> 0 < T -> 0 < r < 1 ->
  (exists v, inf_start_time g r false = Ok v /\ T < v) /\
  (forall r', r < r' < 1 ->
     exists v v', inf_start_time g r false = Ok v /\
       inf_start_time g r' false = Ok v' /\ v < v') /\
  (1 < T -> exists v, inf_start_time g r true = Ok v /\ T < v) /\
  (1 < T -> forall r', r < r' < 1 ->
     exists v v', inf_start_time g r true = Ok v /\
       inf_start_time g r' true = Ok v' /\ v < v') /\
  (T <= 1 -> exists v, inf_start_time g r true = Ok v /\ v <= T) /\
  (T = 1 -> inf_start_time g r true = Ok T) /\
  (T < 1 -> exists v, inf_start_time g r true = Ok v /\ v < T).
Proof.
  intros HT H0 Hr.
  pose proof (Rinv_one_minus_gt_1 r Hr) as Hinv.
  assert (Hlin : forall q, q <> 1 ->
            inf_start_time g q false = Ok (T / (1 - q)))
    by (intros q Hq; apply inf_start_time_linear; [exact HT | lra | exact Hq]).
  assert (Hlog : forall q, q <> 1 ->
            inf_start_time g q true = Ok (exp (ln T / (1 - q))))
    by (intros q Hq; apply inf_start_time_log; assumption).
  split; [| split; [| split; [| split; [| split; [| split]]]]].
  - exists (T / (1 - r)). split; [apply Hlin; lra |].
    unfold Rdiv. nra.
  - intros r' Hr'. exists (T / (1 - r)), (T / (1 - r')).
    split; [apply Hlin; lra |]. split; [apply Hlin; lra |].
    pose proof (Rinv_one_minus_increasing r r' Hr') as Hi.
    unfold Rdiv. nra.
  - intro H1. exists (exp (ln T / (1 - r))). split; [apply Hlog; lra |].
    rewrite <- (exp_ln T H0) at 1. apply exp_increasing.
    pose proof (ln_gt_0 T H1). unfold Rdiv. nra.
  - intros H1 r' Hr'.
    exists (exp (ln T / (1 - r))), (exp (ln T / (1 - r'))).
    split; [apply Hlog; lra |]. split; [apply Hlog; lra |].
    apply exp_increasing.
    pose proof (ln_gt_0 T H1).
    pose proof (Rinv_one_minus_increasing r r' Hr') as Hi.
    unfold Rdiv. nra.
  - intro H1. exists (exp (ln T / (1 - r))). split; [apply Hlog; lra |].
    rewrite <- (exp_ln T H0) at 2. apply exp_le_compat.
    pose proof (ln_le_0 T H0 H1). unfold Rdiv. nra.
  - intro H1. rewrite Hlog by lra. subst T.
    rewrite ln_1. unfold Rdiv. rewrite Rmult_0_l, exp_0. reflexivity.
  - intro H1. exists (exp (ln T / (1 - r))). split; [apply Hlog; lra |].
    rewrite <- (exp_ln T H0) at 2. apply exp_increasing.
    assert (Hneg : ln T < 0)
      by (rewrite <- ln_1; apply ln_increasing; lra).
    unfold Rdiv. nra.
Qed.

Lemma inf_start_time_beyond_witness :
  (exists v, inf_start_time (root_graph 100) (1 / 10) false = Ok v /\ 100 < v) /\
  (forall r', 1 / 10 < r' < 1 ->
     exists v v', inf_start_time (root_graph 100) (1 / 10) false = Ok v /\
       inf_start_time (root_graph 100) r' false = Ok v' /\ v < v') /\
  (1 < 100 ->
     exists v, inf_start_time (root_graph 100) (1 / 10) true = Ok v /\ 100 < v) /\
  (1 < 100 -> forall r', 1 / 10 < r' < 1 ->
     exists v v', inf_start_time (root_graph 100) (1 / 10) true = Ok v /\
       inf_start_time (root_graph 100) r' true = Ok v' /\ v < v') /\
  (100 <= 1 ->
     exists v, inf_start_time (root_graph 100) (1 / 10) true = Ok v /\ v <= 100) /\
  (100 = 1 -> inf_start_time (root_graph 100) (1 / 10) true = Ok 100) /\
  (100 < 1 ->
     exists v, inf_start_time (root_graph 100) (1 / 10) true = Ok v /\ v < 100).
Proof.
  apply (inf_start_time_beyond (root_graph 100) 100 (1 / 10)).
  - reflexivity.
  - lra.
  - lra.
Defined.

(** C2 fails as stated: for the graph of one root deme whose epoch ends at
    time 1, the oldest finite time is 1 and, on a logarithmic axis with ratio
    1/2, the horizon is 1 too, which is not greater. *)
Lemma inf_start_time_log_not_beyond :
  py_max (epoch0_times (root_graph 1)) = Ok 1 /\
  0 < 1 /\ 0 < 1 / 2 < 1 /\
  inf_start_time (root_graph 1) (1 / 2) true = Ok 1 /\
  ~ 1 < 1.
Proof.
  split; [reflexivity |]. split; [lra |]. split; [lra |]. split; [| lra].
  rewrite (inf_start_time_log (root_graph 1) (1 / 2) 1);
    [| reflexivity | lra | lra].
  rewrite ln_1. unfold Rdiv. rewrite Rmult_0_l, exp_0. reflexivity.
Qed.

(** ** The horizon needs a deme *)

(** C10.  [inf_start_time] fails on the graph without demes, where the
    maximum is of no time at all; on a graph with at least one deme the
    maximum exists and a value is returned (the ratio not being 1 and, on a
    logarithmic axis, the maximum not being negative). *)
Theorem inf_start_time_needs_deme (g : Graph) (inf_ratio : R)
  (log_scale : bool) :
  (demes g = [] ->
     py_max (epoch0_times g) = Err (ValueError "max() arg is an empty sequence")
     /\ inf_start_time g inf_ratio log_scale
          = Err (ValueError "max() arg is an empty sequence")) /\
  (demes g <> [] ->
     exists T, py_max (epoch0_times g) = Ok T /\
       (inf_ratio <> 1 -> log_scale = false \/ 0 <= T ->
          exists v, inf_start_time g inf_ratio log_scale = Ok v)).
Proof.
  split.
  - intro H. unfold inf_start_time, epoch0_times. rewrite H. simpl.
    split; reflexivity.
  - intro H.
    destruct (py_max_nonempty _ (epoch0_times_nonempty g H)) as [T HT].
    exists T. split; [exact HT |]. intros Hr Hcase.
    destruct (Req_dec_T T 0) as [E | N].
    + subst T. exists 113. apply inf_start_time_zero. exact HT.
    + destruct log_scale.
      * destruct Hcase as [Hc | Hc]; [discriminate |].
        eexists. apply (inf_start_time_log g inf_ratio T HT); [lra | exact Hr].
      * eexists. apply (inf_start_time_linear g inf_ratio T HT N Hr).
Qed.

Lemma inf_start_time_needs_deme_witness :
  (py_max (epoch0_times empty_graph)
     = Err (ValueError "max() arg is an empty sequence")
   /\ inf_start_time empty_graph (1 / 10) false
        = Err (ValueError "max() arg is an empty sequence")) /\
  (exists T, py_max (epoch0_times (root_graph 100)) = Ok T /\
     (1 / 10 <> 1 -> true = false \/ 0 <= T ->
        exists v, inf_start_time (root_graph 100) (1 / 10) true = Ok v)).
Proof.
  split.
  - apply (proj1 (inf_start_time_needs_deme empty_graph (1 / 10) false)).
    reflexivity.
  - apply (proj2 (inf_start_time_needs_deme (root_graph 100) (1 / 10) true)).
    simpl. discriminate.
Defined.

(** ** Drawing computations *)

Lemma dbind_ext {A B : Type} (m : Draw A) (f f' : A -> Draw B) :
  (forall a, f a = f' a) -> dbind m f = dbind m f'.
Proof.
  intro H. destruct m as [[a | e] w]; simpl; [rewrite H |]; reflexivity.
Qed.

Lemma dbind_dret {A B : Type} (a : A) (f : A -> Draw B) :
  dbind (dret a) f = f a.
Proof. unfold dret. simpl. destruct (f a). reflexivity. Qed.

Lemma dbind_lift_Ok {A B : Type} (a : A) (f : A -> Draw B) :
  dbind (lift (Ok a)) f = f a.
Proof. apply dbind_dret. Qed.

Lemma dbind_Ok {A B : Type} (a : A) (w : list DrawCall) (f : A -> Draw B) :
  dbind (Ok a, w) f = (fst (f a), (w ++ snd (f a))%list).
Proof. simpl. destruct (f a). reflexivity. Qed.

Lemma dbind_assoc {A B C : Type} (m : Draw A) (f : A -> Draw B)
  (h : B -> Draw C) :
  dbind (dbind m f) h = dbind m (fun a => dbind (f a) h).
Proof.
  destruct m as [[a | e] w]; simpl; [| reflexivity].
  destruct (f a) as [[b | e] w']; simpl; [| reflexivity].
  destruct (h b) as [r w'']. rewrite app_assoc. reflexivity.
Qed.

(** What a sequence of two computations yields when it completes. *)
Lemma dbind_Ok_inv {A B : Type} (m : Draw A) (f : A -> Draw B) (b : B)
  (w : list DrawCall) :
  dbind m f = (Ok b, w) ->
  exists a w1 w2, m = (Ok a, w1) /\ f a = (Ok b, w2) /\ w = (w1 ++ w2)%list.
Proof.
  destruct m as [[a | e] w1]; simpl; [| discriminate].
  destruct (f a) as [r w2] eqn:E. intro H. injection H as -> <-.
  exists a, w1, w2. repeat split. exact E.
Qed.

Lemma for_enumerate_app {A : Type} (body : nat -> A -> Draw unit)
  (l1 l2 : list A) (k : nat) :
  for_enumerate body k (l1 ++ l2) =
    dbind (for_enumerate body k l1)
      (fun _ => for_enumerate body (k + List.length l1) l2).
Proof.
  revert k. induction l1 as [| x l1 IH]; intro k;
    cbn [for_enumerate app List.length].
  - rewrite dbind_dret, Nat.add_0_r. reflexivity.
  - rewrite dbind_assoc. apply dbind_ext. intros _.
    rewrite IH. rewrite Nat.add_succ_r. reflexivity.
Qed.

(** A loop that completes has completed each of its turns, and the calls of
    each turn are among its calls. *)
Lemma for_enumerate_Ok_inv {A : Type} (body : nat -> A -> Draw unit)
  (l : list A) (k : nat) (w : list DrawCall) :
  for_enumerate body k l = (Ok tt, w) ->
  forall i x, nth_error l i = Some x ->
    exists wi, body (k + i)%nat x = (Ok tt, wi) /\ incl wi w.
Proof.
  revert k w. induction l as [| y l IH]; intros k w H i x Hi.
  - destruct i; discriminate.
  - cbn [for_enumerate] in H. apply dbind_Ok_inv in H.
    destruct H as [[] [w1 [w2 [H1 [H2 ->]]]]].
    destruct i as [| i]; simpl in Hi.
    + injection Hi as ->. exists w1. rewrite Nat.add_0_r.
      split; [exact H1 | apply incl_appl, incl_refl].
    + destruct (IH _ _ H2 i x Hi) as [wi [Hb Hincl]].
      exists wi. rewrite Nat.add_succ_r. split; [exact Hb |].
      apply incl_appr. exact Hincl.
Qed.

Lemma for_enumerate_Err_at {A : Type} (body : nat -> A -> Draw unit)
  (l1 : list A) (x : A) (l2 : list A) (k : nat) (w1 w : list DrawCall)
  (e : exn) :
  for_enumerate body k l1 = (Ok tt, w1) ->
  body (k + List.length l1)%nat x = (Err e, w) ->
  for_enumerate body k (l1 ++ x :: l2) = (Err e, (w1 ++ w)%list).
Proof.
  intros H1 H2. rewrite for_enumerate_app, H1.
  cbn [for_enumerate]. rewrite H2. reflexivity.
Qed.

(** ** The end time on a logarithmic axis *)

Lemma plot_end_time_linear (o : Options) (epoch : Epoch) :
  log_x o = false -> plot_end_time o epoch = end_time epoch.
Proof.
  intro H. unfold plot_end_time. rewrite H, andb_false_r. reflexivity.
Qed.

Lemma plot_end_time_nonzero (o : Options) (epoch : Epoch) :
  end_time epoch <> 0 -> plot_end_time o epoch = end_time epoch.
Proof.
  intro H. unfold plot_end_time. apply Reqb_neq in H. rewrite H. reflexivity.
Qed.

Lemma plot_end_time_log_zero (o : Options) (epoch : Epoch) :
  log_x o = true -> end_time epoch = 0 -> plot_end_time o epoch = 1.
Proof.
  intros H H0. unfold plot_end_time. rewrite H, H0, Reqb_refl. reflexivity.
Qed.

(** ** Epochs that cannot be plotted *)

Lemma epoch_xy_unknown (o : Options) (inf_t : R) (k : nat) (epoch : Epoch) :
  size_function epoch <> "constant" ->
  size_function epoch <> "exponential" ->
  epoch_xy o inf_t k epoch = Err (ValueError (unknown_size_function_msg k epoch)).
Proof.
  intros Hc He. unfold epoch_xy.
  apply String.eqb_neq in Hc. apply String.eqb_neq in He.
  rewrite Hc, He. reflexivity.
Qed.

(** The turn of the loop for such an epoch raises before it issues a call. *)
Lemma plot_epoch_unknown (o : Options) (g : Graph) (cm : Colormap) (inf_t : R)
  (j : nat) (deme : Deme) (k : nat) (epoch : Epoch) :
  size_function epoch <> "constant" ->
  size_function epoch <> "exponential" ->
  plot_epoch o g cm inf_t j deme k epoch
    = (Err (ValueError (unknown_size_function_msg k epoch)), []).
Proof.
  intros Hc He. unfold plot_epoch.
  rewrite (epoch_xy_unknown o inf_t k epoch Hc He). reflexivity.
Qed.

Section RendererFacts.

Variable size_of_deme_at_time : Deme -> time -> result R.

Lemma size_history_with_cmap (o : Options) (g : Graph) (cm : Colormap) :
  choose_cmap o g = Ok cm ->
  size_history size_of_deme_at_time o g
    = draw_with size_of_deme_at_time o g cm.
Proof.
  intro H. unfold size_history. rewrite H. apply dbind_lift_Ok.
Qed.

(** A run that completes has completed every turn of the deme loop and of
    each epoch loop, and holds the calls of each. *)
Lemma size_history_Ok_inv (o : Options) (g : Graph) (w : list DrawCall) :
  size_history size_of_deme_at_time o g = (Ok tt, w) ->
  exists cm inf_t,
    choose_cmap o g = Ok cm /\
    inf_start_time g (inf_ratio o) (log_x o) = Ok inf_t /\
    forall j deme, nth_error (demes g) j = Some deme ->
      forall k epoch, nth_error (epochs deme) k = Some epoch ->
        exists wk, plot_epoch o g cm inf_t j deme k epoch = (Ok tt, wk) /\
                   incl wk w.
Proof.
  intro H. unfold size_history in H.
  apply dbind_Ok_inv in H. destruct H as [cm [w0 [w1 [Hcm [H Hw]]]]].
  unfold lift in Hcm. injection Hcm as Hcm Hw0.
  unfold draw_with in H.
  apply dbind_Ok_inv in H. destruct H as [inf_t [w2 [w3 [Hinf [H Hw1]]]]].
  unfold lift in Hinf. injection Hinf as Hinf Hw2.
  apply dbind_Ok_inv in H. destruct H as [[] [w4 [w5 [Hloop [_ Hw3]]]]].
  exists cm, inf_t. split; [exact Hcm |]. split; [exact Hinf |].
  intros j deme Hj k epoch Hk.
  destruct (for_enumerate_Ok_inv _ _ _ _ Hloop j deme Hj) as [wj [Hd Hwj]].
  simpl in Hd. unfold plot_deme in Hd.
  apply dbind_Ok_inv in Hd. destruct Hd as [[] [w6 [w7 [He [_ Hw6]]]]].
  destruct (for_enumerate_Ok_inv _ _ _ _ He k epoch Hk) as [wk [Hb Hwk]].
  exists wk. split; [exact Hb |].
  subst w w0 w1 w2 w3 wj. simpl.
  apply incl_appl. apply incl_tran with (w6 ++ w7)%list; [| exact Hwj].
  apply incl_appl. exact Hwk.
Qed.

(** A graph that holds such an epoch is never drawn to the end. *)
Lemma size_history_unknown_fails (o : Options) (g : Graph) (deme : Deme)
  (epoch : Epoch) :
  In deme (demes g) -> In epoch (epochs deme) ->
  size_function epoch <> "constant" ->
  size_function epoch <> "exponential" ->
  exists e, outcome (size_history size_of_deme_at_time o g) = Err e.
Proof.
  intros Hd He Hc Hx.
  destruct (size_history size_of_deme_at_time o g) as [[[] | e] w] eqn:E;
    [| exists e; reflexivity].
  exfalso.
  destruct (size_history_Ok_inv o g w E) as [cm [inf_t [_ [_ H]]]].
  destruct (In_nth_error _ _ Hd) as [j Hj].
  destruct (In_nth_error _ _ He) as [k Hk].
  destruct (H j deme Hj k epoch Hk) as [wk [Hb _]].
  rewrite plot_epoch_unknown in Hb by assumption.
  discriminate.
Qed.

End RendererFacts.

(** C3, as the code has it.  An epoch whose size function is neither
    "constant" nor "exponential" stops the run when its turn comes, that is
    once the colour map and the horizon are there and the turns of the earlier
    demes and of the earlier epochs of its deme have completed.  The error is
    a [ValueError] whose message names the index of the epoch in its deme and
    the size function, and does not name the deme.  The calls issued are
    those of the earlier turns: none for this epoch or after it, though the
    earlier epochs have been drawn. *)
Theorem size_history_unknown_size_function
  (size_of_deme_at_time : Deme -> time -> result R) (o : Options) (g : Graph)
  (cm : Colormap) (inf_t : R) (ds1 : list Deme) (deme : Deme)
  (ds2 : list Deme) (es1 : list Epoch) (epoch : Epoch) (es2 : list Epoch)
  (w1 w2 : list DrawCall) :
  demes g = (ds1 ++ deme :: ds2)%list ->
  epochs deme = (es1 ++ epoch :: es2)%list ->
  size_function epoch <> "constant" ->
  size_function epoch <> "exponential" ->
  choose_cmap o g = Ok cm ->
  inf_start_time g (inf_ratio o) (log_x o) = Ok inf_t ->
  for_enumerate (plot_deme size_of_deme_at_time o g cm inf_t) 0 ds1
    = (Ok tt, w1) ->
  for_enumerate (plot_epoch o g cm inf_t (List.length ds1) deme) 0 es1
    = (Ok tt, w2) ->
  size_history size_of_deme_at_time o g
    = (Err (ValueError
              ("Don't know how to plot epoch " ++ str_of_nat (List.length es1)
                 ++ " with " ++ dquote ++ size_function epoch ++ dquote
                 ++ " size_function.")),
       (w1 ++ w2)%list).
Proof.
  intros Hds Hes Hc He Hcm Hinf H1 H2.
  change (size_history size_of_deme_at_time o g
          = (Err (ValueError
                    (unknown_size_function_msg (List.length es1) epoch)),
             (w1 ++ w2)%list)).
  rewrite (size_history_with_cmap size_of_deme_at_time o g cm Hcm).
  unfold draw_with. rewrite Hinf, dbind_lift_Ok, Hds.
  rewrite (for_enumerate_Err_at _ ds1 deme ds2 0 w1 w2
             (ValueError (unknown_size_function_msg (List.length es1) epoch))
             H1).
  - reflexivity.
  - simpl. unfold plot_deme. rewrite Hes.
    rewrite (for_enumerate_Err_at _ es1 epoch es2 0 w2 []
               (ValueError
                  (unknown_size_function_msg (List.length es1) epoch)) H2).
    + rewrite app_nil_r. reflexivity.
    + apply plot_epoch_unknown; assumption.
Qed.

(** The horizon of the sample graph of two epochs. *)
Lemma two_epoch_graph_horizon (e : Epoch) :
  inf_start_time (two_epoch_graph e) (1 / 10) false = Ok (100 / (1 - 1 / 10)).
Proof. apply inf_start_time_linear; [reflexivity | lra | lra]. Qed.

(** The turn for the first epoch of the sample deme draws one line. *)
Lemma two_epoch_deme_first_turn (e : Epoch) :
  for_enumerate
    (plot_epoch default_options (two_epoch_graph e) "tab10" (100 / (1 - 1 / 10))
       0 (two_epoch_deme e)) 0 [root_epoch 100]
  = (Ok tt,
     [plot [Finite (100 / (1 - 1 / 10)); Finite 100] [1000; 1000]
        (plot_kwargs_of (two_epoch_graph e) "tab10" 0 (two_epoch_deme e))]).
Proof.
  cbn -[Rdiv Rminus]. rewrite plot_end_time_linear by reflexivity. reflexivity.
Qed.

Lemma size_history_unknown_size_function_witness :
  size_history constant_size_of_deme_at_time default_options
    (two_epoch_graph (recent_epoch 1000 2000 "logistic"))
  = (Err (ValueError
            ("Don't know how to plot epoch " ++ str_of_nat 1
               ++ " with " ++ dquote ++ "logistic" ++ dquote
               ++ " size_function.")),
     ([] ++
      [plot [Finite (100 / (1 - 1 / 10)); Finite 100] [1000; 1000]
         (plot_kwargs_of (two_epoch_graph (recent_epoch 1000 2000 "logistic"))
            "tab10" 0 (two_epoch_deme (recent_epoch 1000 2000 "logistic")))])%list).
Proof.
  apply (size_history_unknown_size_function constant_size_of_deme_at_time
           default_options
           (two_epoch_graph (recent_epoch 1000 2000 "logistic"))
           "tab10" (100 / (1 - 1 / 10))
           [] (two_epoch_deme (recent_epoch 1000 2000 "logistic")) []
           [root_epoch 100] (recent_epoch 1000 2000 "logistic") []).
  - reflexivity.
  - reflexivity.
  - simpl. discriminate.
  - simpl. discriminate.
  - reflexivity.
  - apply two_epoch_graph_horizon.
  - reflexivity.
  - apply two_epoch_deme_first_turn.
Defined.

(** C3 fails as stated: for the deme "YRI" whose second epoch is "logistic",
    the first epoch has been drawn when the error is raised, and the message
    of the error does not hold the name of the deme. *)
Lemma size_history_logistic_after_constant :
  size_history constant_size_of_deme_at_time default_options
    (two_epoch_graph (recent_epoch 1000 2000 "logistic"))
  = (Err (ValueError
            (unknown_size_function_msg 1 (recent_epoch 1000 2000 "logistic"))),
     [plot [Finite (100 / (1 - 1 / 10)); Finite 100] [1000; 1000]
        (plot_kwargs_of (two_epoch_graph (recent_epoch 1000 2000 "logistic"))
           "tab10" 0 (two_epoch_deme (recent_epoch 1000 2000 "logistic")))])
  /\ deme_id (two_epoch_deme (recent_epoch 1000 2000 "logistic")) = "YRI"
  /\ index 0 "YRI"
       (unknown_size_function_msg 1 (recent_epoch 1000 2000 "logistic"))
     = None.
Proof.
  split; [| split; reflexivity].
  rewrite (size_history_with_cmap _ _ _ "tab10") by reflexivity.
  unfold draw_with.
  rewrite two_epoch_graph_horizon, dbind_lift_Ok.
  cbn -[Rdiv Rminus].
  rewrite plot_end_time_linear by reflexivity. reflexivity.
Qed.

(** ** The colour map *)

(** C4.  When no colour map is given: with at most 10 demes the run uses
    "tab10"; with 11 to 20 demes it uses "tab20"; with more than 20 demes it
    raises the configuration error and no call has been issued. *)
Theorem size_history_default_cmap
  (size_of_deme_at_time : Deme -> time -> result R) (o : Options) (g : Graph) :
  cmap o = None ->
  ((List.length (demes g) <= 10)%nat ->
     choose_cmap o g = Ok (get_cmap "tab10") /\
     size_history size_of_deme_at_time o g
       = draw_with size_of_deme_at_time o g (get_cmap "tab10")) /\
  ((10 < List.length (demes g) <= 20)%nat ->
     choose_cmap o g = Ok (get_cmap "tab20") /\
     size_history size_of_deme_at_time o g
       = draw_with size_of_deme_at_time o g (get_cmap "tab20")) /\
  ((20 < List.length (demes g))%nat ->
     size_history size_of_deme_at_time o g
       = (Err (ValueError
           "Graph has more than 20 demes, so cmap must be specified. Good luck!"),
          [])).
Proof.
  intro Hnone.
  assert (Hsel : choose_cmap o g =
            if (List.length (demes g) <=? 10)%nat then Ok (get_cmap "tab10")
            else if (List.length (demes g) <=? 20)%nat then Ok (get_cmap "tab20")
            else Err (ValueError
              "Graph has more than 20 demes, so cmap must be specified. Good luck!"))
    by (unfold choose_cmap; rewrite Hnone; reflexivity).
  split; [| split].
  - intro H. apply Nat.leb_le in H. rewrite H in Hsel.
    split; [exact Hsel | apply size_history_with_cmap; exact Hsel].
  - intros [H1 H2]. apply Nat.leb_gt in H1. apply Nat.leb_le in H2.
    rewrite H1, H2 in Hsel.
    split; [exact Hsel | apply size_history_with_cmap; exact Hsel].
  - intro H.
    assert (H1 : (List.length (demes g) <=? 10)%nat = false)
      by (apply Nat.leb_gt; lia).
    apply Nat.leb_gt in H. rewrite H1, H in Hsel.
    unfold size_history. rewrite Hsel. reflexivity.
Qed.

Lemma size_history_default_cmap_witness :
  size_history constant_size_of_deme_at_time default_options many_demes_graph
  = (Err (ValueError
       "Graph has more than 20 demes, so cmap must be specified. Good luck!"),
     []).
Proof.
  apply (size_history_default_cmap constant_size_of_deme_at_time
           default_options many_demes_graph).
  - reflexivity.
  - simpl. lia.
Defined.

(** ** Discontinuities between epochs *)

Lemma plot_discontinuity_next (deme : Deme) (dk : LineKwargs) (k : nat)
  (prev epoch : Epoch) :
  nth_error (epochs deme) k = Some prev ->
  plot_discontinuity deme dk (S k) epoch
    = (Ok tt,
       if Reqb (end_size prev) (start_size epoch) then []
       else [plot [Finite (end_time prev); start_time epoch]
                  [end_size prev; start_size epoch] dk]).
Proof.
  intro H. unfold plot_discontinuity, getitem.
  cbn [Nat.ltb Nat.leb]. rewrite Nat.sub_1_r. cbn [Nat.pred].
  rewrite H, dbind_lift_Ok.
  destruct (Reqb (end_size prev) (start_size epoch)); reflexivity.
Qed.

Lemma plot_discontinuity_first (deme : Deme) (dk : LineKwargs)
  (epoch : Epoch) :
  plot_discontinuity deme dk 0 epoch = (Ok tt, []).
Proof. reflexivity. Qed.

(** The label of an epoch is the only call of [annotate_epoch]. *)
Lemma annotate_epoch_calls (o : Options) (g : Graph) (inf_t : R)
  (colour : Colour) (lw : Z) (k : nat) (epoch : Epoch) (c : DrawCall) :
  In c (calls (annotate_epoch o g inf_t colour lw k epoch)) ->
  exists text xy xytext ha va col, c = annotate text xy xytext ha va col.
Proof.
  unfold annotate_epoch.
  match goal with |- context [dbind (lift ?r) _] => destruct r as [tx | e] end;
    [| intros []].
  rewrite dbind_lift_Ok.
  match goal with |- context [dbind (lift ?r) _] => destruct r as [ty | e] end;
    [| intros []].
  rewrite dbind_lift_Ok. intros [<- | []]. repeat eexists.
Qed.

(** The calls of the turn for an epoch whose coordinates are there: its
    line, then what [plot_discontinuity] and [annotate_epoch] issue. *)
Lemma plot_epoch_calls (o : Options) (g : Graph) (cm : Colormap) (inf_t : R)
  (j : nat) (deme : Deme) (k : nat) (epoch : Epoch) (xy : list R * list R)
  (wd : list DrawCall) :
  epoch_xy o inf_t k epoch = Ok xy ->
  plot_discontinuity deme (discontinuity_kwargs_of g cm j) k epoch
    = (Ok tt, wd) ->
  calls (plot_epoch o g cm inf_t j deme k epoch)
    = (plot (map Finite (fst xy)) (snd xy) (plot_kwargs_of g cm j deme)
        :: wd
        ++ (if annotate_epochs o then
              calls (annotate_epoch o g inf_t (cmap_colour cm j)
                       (deme_linewidth j) k epoch)
            else []))%list.
Proof.
  intros Hxy Hd. unfold plot_epoch. rewrite Hxy, dbind_lift_Ok.
  unfold emit. rewrite dbind_Ok. rewrite Hd, dbind_Ok.
  destruct (annotate_epochs o); reflexivity.
Qed.

Lemma plot_kwargs_not_dotted (g : Graph) (cm : Colormap) (j : nat)
  (deme : Deme) :
  linestyle (plot_kwargs_of g cm j deme) = "solid" /\
  linestyle (discontinuity_kwargs_of g cm j) = ":".
Proof.
  unfold plot_kwargs_of, discontinuity_kwargs_of, linestyles.
  cbn [linestyle List.length]. rewrite Nat.mod_1_r. split; reflexivity.
Qed.

(** C5.  In the turn for epoch [k + 1] of a deme, the dotted connector from
    (end time, end size) of epoch [k] to (start time, start size) of epoch
    [k + 1] is among the calls issued if and only if the end size of epoch
    [k] differs from the start size of epoch [k + 1]; and the calls of that
    turn are calls of every run that completes. *)
Theorem plot_epoch_connector_iff (o : Options) (g : Graph) (cm : Colormap)
  (inf_t : R) (j : nat) (deme : Deme) (k : nat) (prev epoch : Epoch)
  (xy : list R * list R) :
  nth_error (epochs deme) k = Some prev ->
  nth_error (epochs deme) (S k) = Some epoch ->
  epoch_xy o inf_t (S k) epoch = Ok xy ->
  (In (connector g cm j prev epoch)
      (calls (plot_epoch o g cm inf_t j deme (S k) epoch))
   <-> end_size prev <> start_size epoch) /\
  linestyle (discontinuity_kwargs_of g cm j) = ":" /\
  (forall size_of_deme_at_time w,
     size_history size_of_deme_at_time o g = (Ok tt, w) ->
     choose_cmap o g = Ok cm ->
     inf_start_time g (inf_ratio o) (log_x o) = Ok inf_t ->
     nth_error (demes g) j = Some deme ->
     incl (calls (plot_epoch o g cm inf_t j deme (S k) epoch)) w).
Proof.
  intros Hprev Hepoch Hxy.
  split; [| split; [apply (plot_kwargs_not_dotted g cm j deme) |]].
  - rewrite (plot_epoch_calls o g cm inf_t j deme (S k) epoch xy _ Hxy
               (plot_discontinuity_next deme _ k prev epoch Hprev)).
    unfold connector. split.
    + intros [H | H].
      * exfalso.
        apply (f_equal (fun c => match c with
                                 | plot _ _ kw => linestyle kw
                                 | _ => ""
                                 end)) in H.
        destruct (plot_kwargs_not_dotted g cm j deme) as [Hs Hd].
        rewrite Hs, Hd in H. discriminate.
      * apply in_app_or in H. destruct H as [H | H].
        -- destruct (Reqb (end_size prev) (start_size epoch)) eqn:E;
             [destruct H | apply Reqb_neq; exact E].
        -- exfalso. destruct (annotate_epochs o); [| destruct H].
           apply annotate_epoch_calls in H.
           destruct H as [t [p [q [ha [va [col H]]]]]]. discriminate.
    + intro H. apply Reqb_neq in H. rewrite H.
      right. apply in_or_app. left. left. reflexivity.
  - intros h w Hrun Hcm Hinf Hj.
    destruct (size_history_Ok_inv h o g w Hrun) as [cm' [inf_t' [Hcm' [Hinf' H]]]].
    rewrite Hcm in Hcm'. injection Hcm' as <-.
    rewrite Hinf in Hinf'. injection Hinf' as <-.
    destruct (H j deme Hj (S k) epoch Hepoch) as [wk [Hb Hincl]].
    rewrite Hb. exact Hincl.
Qed.

Lemma plot_epoch_connector_iff_witness :
  (In (connector (two_epoch_graph (recent_epoch 2000 2000 "constant")) "tab10"
         0 (root_epoch 100) (recent_epoch 2000 2000 "constant"))
      (calls (plot_epoch default_options
                (two_epoch_graph (recent_epoch 2000 2000 "constant")) "tab10"
                (100 / (1 - 1 / 10)) 0
                (two_epoch_deme (recent_epoch 2000 2000 "constant")) 1
                (recent_epoch 2000 2000 "constant")))
   <-> end_size (root_epoch 100)
         <> start_size (recent_epoch 2000 2000 "constant")) /\
  linestyle (discontinuity_kwargs_of
               (two_epoch_graph (recent_epoch 2000 2000 "constant")) "tab10" 0)
    = ":" /\
  (forall size_of_deme_at_time w,
     size_history size_of_deme_at_time default_options
       (two_epoch_graph (recent_epoch 2000 2000 "constant")) = (Ok tt, w) ->
     choose_cmap default_options
       (two_epoch_graph (recent_epoch 2000 2000 "constant")) = Ok "tab10" ->
     inf_start_time (two_epoch_graph (recent_epoch 2000 2000 "constant"))
       (inf_ratio default_options) (log_x default_options)
       = Ok (100 / (1 - 1 / 10)) ->
     nth_error (demes (two_epoch_graph (recent_epoch 2000 2000 "constant"))) 0
       = Some (two_epoch_deme (recent_epoch 2000 2000 "constant")) ->
     incl (calls (plot_epoch default_options
                    (two_epoch_graph (recent_epoch 2000 2000 "constant"))
                    "tab10" (100 / (1 - 1 / 10)) 0
                    (two_epoch_deme (recent_epoch 2000 2000 "constant")) 1
                    (recent_epoch 2000 2000 "constant"))) w).
Proof.
  apply (plot_epoch_connector_iff default_options
           (two_epoch_graph (recent_epoch 2000 2000 "constant")) "tab10"
           (100 / (1 - 1 / 10)) 0
           (two_epoch_deme (recent_epoch 2000 2000 "constant")) 0
           (root_epoch 100) (recent_epoch 2000 2000 "constant")
           ([100; 0], [2000; 2000])).
  - reflexivity.
  - reflexivity.
  - cbn -[Rdiv Rminus]. rewrite plot_end_time_linear by reflexivity.
    reflexivity.
Defined.

(** ** The coordinates of an epoch *)

Lemma linspace_length (a b : R) (n : nat) : List.length (linspace a b n) = n.
Proof. unfold linspace. rewrite length_map, length_seq. reflexivity. Qed.

Lemma nth_map_lt {A B : Type} (f : A -> B) (l : list A) (i : nat) (d : A)
  (d' : B) :
  (i < List.length l)%nat -> nth i (map f l) d' = f (nth i l d).
Proof.
  revert i. induction l as [| x l IH]; intros i H; simpl in H; [lia |].
  destruct i as [| i]; simpl; [reflexivity | apply IH; lia].
Qed.

Lemma linspace_nth (a b : R) (n i : nat) :
  (i < n)%nat ->
  nth i (linspace a b n) 0 = a + INR i * ((b - a) / INR (n - 1)).
Proof.
  intro H. unfold linspace.
  rewrite (nth_map_lt _ _ i O) by (rewrite length_seq; exact H).
  rewrite seq_nth by exact H. reflexivity.
Qed.

Lemma linspace_first (a b : R) (n : nat) :
  (1 <= n)%nat -> nth 0 (linspace a b n) 0 = a.
Proof.
  intro H. rewrite linspace_nth by lia. simpl. lra.
Qed.

Lemma linspace_last (a b : R) (n : nat) :
  (2 <= n)%nat -> nth (n - 1) (linspace a b n) 0 = b.
Proof.
  intro H. rewrite linspace_nth by lia.
  assert (Hn : INR (n - 1) <> 0) by (apply not_0_INR; lia).
  field. exact Hn.
Qed.

Lemma linspace_step (a b : R) (n i : nat) :
  (S i < n)%nat ->
  nth (S i) (linspace a b n) 0 - nth i (linspace a b n) 0
    = (b - a) / INR (n - 1).
Proof.
  intro H. rewrite !linspace_nth by lia. rewrite S_INR. lra.
Qed.

Lemma last_nth {A : Type} (l : list A) (d : A) :
  last l d = nth (List.length l - 1) l d.
Proof.
  induction l as [| x l IH]; [reflexivity |].
  destruct l as [| y l]; [reflexivity |].
  change (last (x :: y :: l) d) with (last (y :: l) d). rewrite IH.
  simpl. rewrite Nat.sub_0_r. reflexivity.
Qed.

Lemma exp_rate_pos (epoch : Epoch) :
  0 < start_size epoch -> 0 < end_size epoch ->
  exp_rate epoch = Ok (ln (end_size epoch / start_size epoch)).
Proof.
  intros Hs He. unfold exp_rate. rewrite py_div_ok by lra. simpl.
  apply np_log_pos. apply Rdiv_lt_0_compat; assumption.
Qed.

Lemma epoch_xy_constant (o : Options) (inf_t : R) (k : nat) (epoch : Epoch) :
  size_function epoch = "constant" ->
  epoch_xy o inf_t k epoch
    = Ok ([plot_start_time inf_t epoch; plot_end_time o epoch],
          [start_size epoch; end_size epoch]).
Proof. intro H. unfold epoch_xy. rewrite H. reflexivity. Qed.

Lemma epoch_xy_exponential (o : Options) (inf_t : R) (k : nat)
  (epoch : Epoch) :
  size_function epoch = "exponential" ->
  epoch_xy o inf_t k epoch
    = (r <- exp_rate epoch ;;
       Ok (linspace (plot_start_time inf_t epoch) (plot_end_time o epoch)
             (num_exp_points o),
           map (exp_size epoch r) (linspace 0 1 (num_exp_points o)))).
Proof. intro H. unfold epoch_xy. rewrite H. reflexivity. Qed.

Lemma exp_size_nth (epoch : Epoch) (r : R) (n i : nat) :
  (i < n)%nat ->
  nth i (map (exp_size epoch r) (linspace 0 1 n)) 0
    = exp_size epoch r (nth i (linspace 0 1 n) 0).
Proof.
  intro H. apply nth_map_lt. rewrite linspace_length. exact H.
Qed.

(** C6.  For an epoch with positive start and end sizes the rate is
    [ln (end_size / start_size)], and the curve
    [start_size * exp (rate * dt)] is the start size at [dt = 0] and the end
    size at [dt = 1]; so are the first and the last size that [size_history]
    computes for an exponential epoch. *)
Theorem exp_size_endpoints (epoch : Epoch) :
  0 < start_size epoch -> 0 < end_size epoch ->
  exp_rate epoch = Ok (ln (end_size epoch / start_size epoch)) /\
  exp_size epoch (ln (end_size epoch / start_size epoch)) 0
    = start_size epoch /\
  exp_size epoch (ln (end_size epoch / start_size epoch)) 1
    = end_size epoch /\
  (forall o inf_t k,
     size_function epoch = "exponential" ->
     exists x y,
       epoch_xy o inf_t k epoch = Ok (x, y) /\
       ((1 <= num_exp_points o)%nat -> nth 0 y 0 = start_size epoch) /\
       ((2 <= num_exp_points o)%nat ->
          nth (num_exp_points o - 1) y 0 = end_size epoch)).
Proof.
  intros Hs He.
  assert (Hq : 0 < end_size epoch / start_size epoch)
    by (apply Rdiv_lt_0_compat; assumption).
  assert (H0 : exp_size epoch (ln (end_size epoch / start_size epoch)) 0
               = start_size epoch)
    by (unfold exp_size; rewrite Rmult_0_r, exp_0; lra).
  assert (H1 : exp_size epoch (ln (end_size epoch / start_size epoch)) 1
               = end_size epoch)
    by (unfold exp_size; rewrite Rmult_1_r, (exp_ln _ Hq); field; lra).
  split; [apply exp_rate_pos; assumption |].
  split; [exact H0 |]. split; [exact H1 |].
  intros o inf_t k Hf. rewrite (epoch_xy_exponential o inf_t k epoch Hf).
  rewrite (exp_rate_pos epoch Hs He). simpl.
  eexists. eexists. split; [reflexivity |]. split; intro Hn.
  - rewrite exp_size_nth by lia. rewrite linspace_first by exact Hn. exact H0.
  - rewrite exp_size_nth by lia. rewrite linspace_last by exact Hn. exact H1.
Qed.

Lemma exp_size_endpoints_witness :
  exp_rate (recent_epoch 1000 2000 "exponential")
    = Ok (ln (end_size (recent_epoch 1000 2000 "exponential")
              / start_size (recent_epoch 1000 2000 "exponential"))) /\
  exp_size (recent_epoch 1000 2000 "exponential")
    (ln (end_size (recent_epoch 1000 2000 "exponential")
         / start_size (recent_epoch 1000 2000 "exponential"))) 0
    = start_size (recent_epoch 1000 2000 "exponential") /\
  exp_size (recent_epoch 1000 2000 "exponential")
    (ln (end_size (recent_epoch 1000 2000 "exponential")
         / start_size (recent_epoch 1000 2000 "exponential"))) 1
    = end_size (recent_epoch 1000 2000 "exponential") /\
  (forall o inf_t k,
     size_function (recent_epoch 1000 2000 "exponential") = "exponential" ->
     exists x y,
       epoch_xy o inf_t k (recent_epoch 1000 2000 "exponential") = Ok (x, y) /\
       ((1 <= num_exp_points o)%nat ->
          nth 0 y 0 = start_size (recent_epoch 1000 2000 "exponential")) /\
       ((2 <= num_exp_points o)%nat ->
          nth (num_exp_points o - 1) y 0
            = end_size (recent_epoch 1000 2000 "exponential"))).
Proof.
  apply (exp_size_endpoints (recent_epoch 1000 2000 "exponential")).
  - simpl. lra.
  - simpl. lra.
Defined.

Lemma epoch_xy_Ok_inv (o : Options) (inf_t : R) (k : nat) (epoch : Epoch)
  (x y : list R) :
  epoch_xy o inf_t k epoch = Ok (x, y) ->
  (size_function epoch = "constant" /\
   x = [plot_start_time inf_t epoch; plot_end_time o epoch] /\
   y = [start_size epoch; end_size epoch]) \/
  (size_function epoch = "exponential" /\
   exists r, exp_rate epoch = Ok r /\
     x = linspace (plot_start_time inf_t epoch) (plot_end_time o epoch)
           (num_exp_points o) /\
     y = map (exp_size epoch r) (linspace 0 1 (num_exp_points o))).
Proof.
  unfold epoch_xy.
  destruct (String.eqb_spec (size_function epoch) "constant") as [Hc | Hc].
  - intro H. injection H as <- <-. left. repeat split. exact Hc.
  - destruct (String.eqb_spec (size_function epoch) "exponential") as [He | He];
      [| discriminate].
    destruct (exp_rate epoch) as [r | e]; simpl; [| discriminate].
    intro H. injection H as <- <-. right. split; [exact He |].
    exists r. repeat split.
Qed.

(** The line of an epoch is the first call of its turn. *)
Lemma plot_epoch_line (o : Options) (g : Graph) (cm : Colormap) (inf_t : R)
  (j : nat) (deme : Deme) (k : nat) (epoch : Epoch) (x y : list R) :
  epoch_xy o inf_t k epoch = Ok (x, y) ->
  hd_error (calls (plot_epoch o g cm inf_t j deme k epoch))
    = Some (plot (map Finite x) y (plot_kwargs_of g cm j deme)).
Proof.
  intro H. unfold plot_epoch. rewrite H, dbind_lift_Ok.
  unfold emit. rewrite dbind_Ok. reflexivity.
Qed.

(** C7.  The coordinates of an epoch that is drawn: for a constant epoch,
    the two points (start time, start size) and (end time, end size); for an
    exponential epoch, [num_exp_points] points (100 by default) whose times
    are evenly spaced from the start time to the end time.  These are the
    coordinates of the line its turn draws. *)
Theorem epoch_xy_points (o : Options) (inf_t : R) (k : nat) (epoch : Epoch)
  (x y : list R) :
  epoch_xy o inf_t k epoch = Ok (x, y) ->
  (size_function epoch = "constant" ->
     combine x y = [(plot_start_time inf_t epoch, start_size epoch);
                    (plot_end_time o epoch, end_size epoch)] /\
     List.length x = 2%nat /\ List.length y = 2%nat) /\
  (size_function epoch = "exponential" ->
     List.length x = num_exp_points o /\
     List.length y = num_exp_points o /\
     List.length (combine x y) = num_exp_points o /\
     (forall i, (i < num_exp_points o)%nat ->
        nth i x 0 = plot_start_time inf_t epoch
                    + INR i * ((plot_end_time o epoch
                                - plot_start_time inf_t epoch)
                               / INR (num_exp_points o - 1))) /\
     (forall i, (S i < num_exp_points o)%nat ->
        nth (S i) x 0 - nth i x 0
          = (plot_end_time o epoch - plot_start_time inf_t epoch)
            / INR (num_exp_points o - 1)) /\
     ((1 <= num_exp_points o)%nat -> nth 0 x 0 = plot_start_time inf_t epoch) /\
     ((2 <= num_exp_points o)%nat ->
        nth (num_exp_points o - 1) x 0 = plot_end_time o epoch)) /\
  num_exp_points default_options = 100%nat /\
  (forall g cm j deme,
     hd_error (calls (plot_epoch o g cm inf_t j deme k epoch))
       = Some (plot (map Finite x) y (plot_kwargs_of g cm j deme))).
Proof.
  intro H.
  split; [| split; [| split; [reflexivity |]]].
  - intro Hc. destruct (epoch_xy_Ok_inv _ _ _ _ _ _ H) as [[_ [-> ->]] | [He _]].
    + repeat split.
    + rewrite Hc in He. discriminate.
  - intro He.
    destruct (epoch_xy_Ok_inv _ _ _ _ _ _ H) as [[Hc _] | [_ [r [_ [-> ->]]]]].
    + rewrite He in Hc. discriminate.
    + split; [apply linspace_length |].
      split; [rewrite length_map; apply linspace_length |].
      split; [rewrite length_combine, length_map, !linspace_length;
              apply Nat.min_id |].
      split; [intros i Hi; apply linspace_nth; exact Hi |].
      split; [intros i Hi; apply linspace_step; exact Hi |].
      split; [apply linspace_first | apply linspace_last].
  - intros g cm j deme. apply plot_epoch_line. exact H.
Qed.

Lemma epoch_xy_points_witness :
  (size_function (root_epoch 100) = "constant" ->
     combine [113; 100] [1000; 1000]
       = [(plot_start_time 113 (root_epoch 100), start_size (root_epoch 100));
          (plot_end_time default_options (root_epoch 100),
           end_size (root_epoch 100))] /\
     List.length [113; 100] = 2%nat /\ List.length [1000; 1000] = 2%nat) /\
  (size_function (root_epoch 100) = "exponential" ->
     List.length [113; 100] = num_exp_points default_options /\
     List.length [1000; 1000] = num_exp_points default_options /\
     List.length (combine [113; 100] [1000; 1000])
       = num_exp_points default_options /\
     (forall i, (i < num_exp_points default_options)%nat ->
        nth i [113; 100] 0
          = plot_start_time 113 (root_epoch 100)
            + INR i * ((plot_end_time default_options (root_epoch 100)
                        - plot_start_time 113 (root_epoch 100))
                       / INR (num_exp_points default_options - 1))) /\
     (forall i, (S i < num_exp_points default_options)%nat ->
        nth (S i) [113; 100] 0 - nth i [113; 100] 0
          = (plot_end_time default_options (root_epoch 100)
             - plot_start_time 113 (root_epoch 100))
            / INR (num_exp_points default_options - 1)) /\
     ((1 <= num_exp_points default_options)%nat ->
        nth 0 [113; 100] 0 = plot_start_time 113 (root_epoch 100)) /\
     ((2 <= num_exp_points default_options)%nat ->
        nth (num_exp_points default_options - 1) [113; 100] 0
          = plot_end_time default_options (root_epoch 100))) /\
  num_exp_points default_options = 100%nat /\
  (forall g cm j deme,
     hd_error (calls (plot_epoch default_options g cm 113 j deme 0
                        (root_epoch 100)))
       = Some (plot (map Finite [113; 100]) [1000; 1000]
                 (plot_kwargs_of g cm j deme))).
Proof.
  apply (epoch_xy_points default_options 113 0 (root_epoch 100)
           [113; 100] [1000; 1000]).
  rewrite epoch_xy_constant by reflexivity.
  rewrite plot_end_time_linear by reflexivity. reflexivity.
Defined.

(** C8.  On a logarithmic time axis an end time of zero is replaced by 1;
    otherwise the end time is kept.  The coordinates are computed from the
    resulting end time: it is the last time of the line. *)
Theorem plot_end_time_spec (o : Options) (epoch : Epoch) :
  (log_x o = true -> end_time epoch = 0 -> plot_end_time o epoch = 1) /\
  (log_x o = false \/ end_time epoch <> 0 ->
     plot_end_time o epoch = end_time epoch) /\
  (forall inf_t k x y,
     epoch_xy o inf_t k epoch = Ok (x, y) ->
     size_function epoch = "constant" \/ (2 <= num_exp_points o)%nat ->
     last x 0 = plot_end_time o epoch).
Proof.
  split; [apply plot_end_time_log_zero |]. split.
  - intros [H | H];
      [apply plot_end_time_linear | apply plot_end_time_nonzero]; exact H.
  - intros inf_t k x y H Hcase.
    destruct (epoch_xy_Ok_inv _ _ _ _ _ _ H)
      as [[_ [-> _]] | [He [r [_ [-> _]]]]]; [reflexivity |].
    destruct Hcase as [Hc | Hn]; [rewrite Hc in He; discriminate |].
    rewrite last_nth, linspace_length. apply linspace_last. exact Hn.
Qed.

Lemma plot_end_time_spec_witness :
  plot_end_time log_x_options (recent_epoch 1000 2000 "exponential") = 1 /\
  plot_end_time default_options (recent_epoch 1000 2000 "exponential") = 0 /\
  plot_end_time log_x_options (root_epoch 100) = 100.
Proof.
  split; [| split].
  - apply (proj1 (plot_end_time_spec log_x_options
                    (recent_epoch 1000 2000 "exponential")));
      reflexivity.
  - apply (proj1 (proj2 (plot_end_time_spec default_options
                           (recent_epoch 1000 2000 "exponential")))).
    left. reflexivity.
  - apply (proj1 (proj2 (plot_end_time_spec log_x_options (root_epoch 100)))).
    right. simpl. lra.
Defined.

(** ** Sizes of an exponential epoch *)

(** C9.  The rate of an exponential epoch is defined when both sizes are
    positive.  A start size of zero is a division by zero, an end size of
    zero is the logarithm of zero, and nothing in [size_history] guards
    either: the coordinates of such an exponential epoch are not computed.
    For sizes that are not negative, the rate is thus defined only when both
    are strictly positive. *)
Theorem exp_rate_needs_positive_sizes (epoch : Epoch) :
  (start_size epoch = 0 -> exp_rate epoch = Err ZeroDivisionError) /\
  (start_size epoch <> 0 -> end_size epoch = 0 ->
     exp_rate epoch = Err NotFinite) /\
  (0 < start_size epoch -> 0 < end_size epoch ->
     exp_rate epoch = Ok (ln (end_size epoch / start_size epoch))) /\
  (0 <= start_size epoch -> 0 <= end_size epoch ->
     (exists r, exp_rate epoch = Ok r) ->
     0 < start_size epoch /\ 0 < end_size epoch) /\
  (forall o inf_t k,
     size_function epoch = "exponential" ->
     start_size epoch = 0 \/ end_size epoch = 0 ->
     exists e, epoch_xy o inf_t k epoch = Err e /\
               (e = ZeroDivisionError \/ e = NotFinite)).
Proof.
  assert (H1 : start_size epoch = 0 -> exp_rate epoch = Err ZeroDivisionError)
    by (intro H; unfold exp_rate; rewrite H, py_div_zero; reflexivity).
  assert (H2 : start_size epoch <> 0 -> end_size epoch = 0 ->
               exp_rate epoch = Err NotFinite).
  { intros Hs He. unfold exp_rate. rewrite py_div_ok by exact Hs. simpl.
    apply np_log_nonpos. rewrite He. unfold Rdiv. rewrite Rmult_0_l. lra. }
  split; [exact H1 |]. split; [exact H2 |].
  split; [apply exp_rate_pos |]. split.
  - intros Hs He [r Hr].
    destruct (Req_dec_T (start_size epoch) 0) as [Es | Ns];
      [rewrite (H1 Es) in Hr; discriminate |].
    destruct (Req_dec_T (end_size epoch) 0) as [Ee | Ne];
      [rewrite (H2 Ns Ee) in Hr; discriminate |].
    lra.
  - intros o inf_t k Hf Hz. rewrite (epoch_xy_exponential o inf_t k epoch Hf).
    destruct (Req_dec_T (start_size epoch) 0) as [Es | Ns].
    + exists ZeroDivisionError. rewrite (H1 Es). split; [reflexivity | left; reflexivity].
    + destruct Hz as [Hz | Hz]; [contradiction |].
      exists NotFinite. rewrite (H2 Ns Hz). split; [reflexivity | right; reflexivity].
Qed.

Lemma exp_rate_needs_positive_sizes_witness :
  exp_rate (recent_epoch 0 2000 "exponential") = Err ZeroDivisionError /\
  exp_rate (recent_epoch 1000 0 "exponential") = Err NotFinite /\
  exp_rate (recent_epoch 1000 2000 "exponential") = Ok (ln (2000 / 1000)).
Proof.
  split; [| split].
  - apply (proj1 (exp_rate_needs_positive_sizes
                    (recent_epoch 0 2000 "exponential"))).
    reflexivity.
  - apply (proj1 (proj2 (exp_rate_needs_positive_sizes
                           (recent_epoch 1000 0 "exponential")))).
    + simpl. lra.
    + reflexivity.
  - apply (proj1 (proj2 (proj2 (exp_rate_needs_positive_sizes
                                  (recent_epoch 1000 2000 "exponential"))))).
    + simpl. lra.
    + simpl. lra.
Defined.

(** ** Further facts on the renderer *)

Lemma size_history_unknown_fails_witness :
  exists e,
    outcome (size_history constant_size_of_deme_at_time default_options
               (two_epoch_graph (recent_epoch 1000 2000 "logistic")))
    = Err e.
Proof.
  apply (size_history_unknown_fails constant_size_of_deme_at_time
           default_options
           (two_epoch_graph (recent_epoch 1000 2000 "logistic"))
           (two_epoch_deme (recent_epoch 1000 2000 "logistic"))
           (recent_epoch 1000 2000 "logistic")).
  - simpl. left. reflexivity.
  - simpl. right. left. reflexivity.
  - simpl. discriminate.
  - simpl. discriminate.
Defined.

(** A deme that starts at infinity gets an arrowhead at the horizon, at the
    start size of its first epoch, pointing left when the axis is inverted
    and right otherwise, and the label "inf" when asked for; another deme
    gets neither. *)
Lemma plot_inf_arrow_spec (o : Options) (g : Graph) (inf_t : R)
  (colour : Colour) (deme : Deme) :
  plot_inf_arrow o g inf_t colour deme
  = (Ok tt,
     match deme_start_time deme with
     | Infinity =>
         plot_marker inf_t (start_size (epoch0 deme))
           (if invert_x o then "<k" else ">k") colour (z_top g)
         :: (if inf_label o then
               [annotate "inf" (inf_t, start_size (epoch0 deme)) (0, -6)
                  "center" "top" None]
             else [])
     | Finite _ => []
     end).
Proof.
  unfold plot_inf_arrow.
  destruct (deme_start_time deme); simpl; [reflexivity |].
  destruct (inf_label o); reflexivity.
Qed.

(** A complete run: one root deme of constant size, default options.  The
    line of its epoch reaches from the horizon 113 to time 0, the arrowhead
    sits at the horizon, and the axes are arranged. *)
Example size_history_root_graph :
  size_history constant_size_of_deme_at_time default_options (root_graph 0)
  = (Ok tt,
     [plot [Finite 113; Finite 0] [1000; 1000]
        (plot_kwargs_of (root_graph 0) "tab10" 0 (root_deme "A" 0));
      plot_marker 113 1000 ">k" (cmap_colour "tab10" 0) 10;
      set_xlim 0 113;
      spine_set_visible "top" false;
      spine_set_visible "right" false;
      set_xlabel "time ago (generations)";
      set_ylabel ("deme" ++ newline ++ "size");
      tight_layout]).
Proof.
  rewrite (size_history_with_cmap _ _ _ "tab10") by reflexivity.
  unfold draw_with.
  rewrite inf_start_time_root_graph, dbind_lift_Ok.
  cbn -[Rdiv Rminus].
  rewrite plot_end_time_linear by reflexivity. reflexivity.
Qed.

(** * Further properties *)

(** ** The horizon and the share of the axis *)

(** The oldest time of a graph whose collected times are not negative is not
    negative. *)
Lemma py_max_nonneg (g : Graph) (T : R) :
  py_max (epoch0_times g) = Ok T ->
  (forall t, first_epoch_time g t -> 0 <= t) -> 0 <= T.
Proof.
  intros HT Hpos. apply Hpos, In_epoch0_times.
  apply (py_max_spec _ _ HT).
Qed.

(** [inf_ratio] is the share of the time axis that the stretch from the
    oldest time [T] to the horizon takes: of the axis from 0 on a linear
    scale, and of the axis from 1 on a logarithmic scale. *)
Theorem inf_start_time_share (g : Graph) (T r : R) :
  py_max (epoch0_times g) = Ok T -> 0 < T -> 0 < r < 1 ->
  (exists v, inf_start_time g r false = Ok v /\ (v - T) / (v - 0) = r) /\
  (T <> 1 ->
     exists v, inf_start_time g r true = Ok v /\
       (ln v - ln T) / (ln v - ln 1) = r).
Proof.
  intros HT H0 Hr. split.
  - exists (T / (1 - r)).
    split; [apply inf_start_time_linear; [exact HT | lra | lra] |].
    field. lra.
  - intro H1. exists (exp (ln T / (1 - r))).
    split; [apply inf_start_time_log; [exact HT | exact H0 | lra] |].
    rewrite ln_exp, ln_1.
    assert (Hln : ln T <> 0).
    { intro E. apply H1. apply ln_inv; [exact H0 | lra |].
      rewrite ln_1. exact E. }
    field. split; [lra | exact Hln].
Qed.

Lemma inf_start_time_share_witness :
  (exists v, inf_start_time (root_graph 100) (1 / 10) false = Ok v /\
     (v - 100) / (v - 0) = 1 / 10) /\
  (100 <> 1 ->
     exists v, inf_start_time (root_graph 100) (1 / 10) true = Ok v /\
       (ln v - ln 100) / (ln v - ln 1) = 1 / 10).
Proof.
  apply (inf_start_time_share (root_graph 100) 100 (1 / 10)).
  - reflexivity.
  - lra.
  - lra.
Defined.

(** For a graph with a deme, times that are not negative and a ratio
    strictly between 0 and 1, [inf_start_time] returns a positive number on
    either scale; on the linear scale it lies strictly beyond every time
    collected from the first epochs. *)
Theorem inf_start_time_positive (g : Graph) (r : R) (ls : bool) :
  demes g <> [] ->
  (forall t, first_epoch_time g t -> 0 <= t) ->
  0 < r < 1 ->
  exists v, inf_start_time g r ls = Ok v /\ 0 < v /\
    (ls = false -> forall t, first_epoch_time g t -> t < v).
Proof.
  intros Hne Hpos Hr.
  destruct (py_max_nonempty _ (epoch0_times_nonempty g Hne)) as [T HT].
  pose proof (py_max_nonneg g T HT Hpos) as HT0.
  assert (Hmax : forall t, first_epoch_time g t -> t <= T)
    by (intros t Ht; apply (py_max_spec _ _ HT), In_epoch0_times; exact Ht).
  destruct (Req_dec_T T 0) as [E | N].
  - exists 113. subst T.
    split; [apply inf_start_time_zero; exact HT |]. split; [lra |].
    intros _ t Ht. specialize (Hmax t Ht). lra.
  - pose proof (Rinv_one_minus_gt_1 r Hr) as Hinv.
    destruct ls.
    + exists (exp (ln T / (1 - r))).
      split; [apply inf_start_time_log; [exact HT | lra | lra] |].
      split; [apply exp_pos | discriminate].
    + exists (T / (1 - r)).
      split; [apply inf_start_time_linear; [exact HT | exact N | lra] |].
      assert (HTv : T < T / (1 - r)) by (unfold Rdiv; nra).
      split; [lra |].
      intros _ t Ht. specialize (Hmax t Ht). lra.
Qed.

Lemma first_epoch_time_root_graph (u t : R) :
  first_epoch_time (root_graph u) t -> t = u.
Proof.
  intros [d [[<- | []] [H | H]]]; [exact H | discriminate H].
Qed.

Lemma inf_start_time_positive_witness :
  exists v, inf_start_time (root_graph 100) (1 / 10) false = Ok v /\ 0 < v /\
    (false = false -> forall t, first_epoch_time (root_graph 100) t -> t < v).
Proof.
  apply (inf_start_time_positive (root_graph 100) (1 / 10) false).
  - simpl. discriminate.
  - intros t Ht. rewrite (first_epoch_time_root_graph 100 t Ht). lra.
  - lra.
Defined.

(** The horizon depends on the graph through the set of the times collected
    from the first epochs only: two graphs with the same such times get the
    same result, whatever the order of their demes, their later epochs, sizes
    and names. *)
Theorem inf_start_time_same_times (g g' : Graph) (r : R) (ls : bool) :
  (forall t, first_epoch_time g t <-> first_epoch_time g' t) ->
  inf_start_time g r ls = inf_start_time g' r ls.
Proof.
  intro Hsame.
  assert (Hnil : forall a b : Graph,
            (forall t, first_epoch_time a t <-> first_epoch_time b t) ->
            demes a = [] -> demes b = []).
  { intros a b Hab Ha. destruct (demes b) as [| d ds] eqn:Eb; [reflexivity |].
    exfalso.
    assert (Hb : first_epoch_time b (end_time (epoch0 d)))
      by (exists d; split; [rewrite Eb; left; reflexivity | left; reflexivity]).
    apply Hab in Hb. destruct Hb as [x [Hx _]]. rewrite Ha in Hx. exact Hx. }
  destruct (demes g) as [| d ds] eqn:Eg.
  - assert (Eg' : demes g' = []) by (apply (Hnil g g' Hsame Eg)).
    unfold inf_start_time, epoch0_times. rewrite Eg, Eg'. reflexivity.
  - assert (Hne : demes g <> []) by (rewrite Eg; discriminate).
    assert (Hne' : demes g' <> []).
    { intro E. rewrite (Hnil g' g (fun t => iff_sym (Hsame t)) E) in Hne.
      apply Hne. reflexivity. }
    destruct (py_max_nonempty _ (epoch0_times_nonempty g Hne)) as [T HT].
    destruct (py_max_nonempty _ (epoch0_times_nonempty g' Hne')) as [T' HT'].
    destruct (py_max_spec _ _ HT) as [Hin Hmax].
    destruct (py_max_spec _ _ HT') as [Hin' Hmax'].
    assert (T = T').
    { apply Rle_antisym.
      - apply Hmax', In_epoch0_times, Hsame, In_epoch0_times. exact Hin.
      - apply Hmax, In_epoch0_times, Hsame, In_epoch0_times. exact Hin'. }
    subst T'.
    rewrite (inf_start_time_unfold g r ls T HT).
    rewrite (inf_start_time_unfold g' r ls T HT'). reflexivity.
Qed.

Lemma first_epoch_time_mixed (t : R) :
  first_epoch_time mixed_graph t <-> first_epoch_time mixed_graph' t.
Proof.
  assert (H : forall g, (g = mixed_graph \/ g = mixed_graph') ->
            (first_epoch_time g t <-> t = 100 \/ t = 0)).
  { intros g Hg. split.
    - intros [d [Hd Ht]].
      destruct Hg as [-> | ->]; simpl in Hd;
        repeat (destruct Hd as [<- | Hd];
                [destruct Ht as [Ht | Ht]; simpl in Ht;
                 [auto | discriminate Ht] |]);
        destruct Hd.
    - intros [-> | ->]; destruct Hg as [-> | ->].
      + exists (root_deme "A" 100). simpl. auto.
      + exists (root_deme "A" 100). simpl. auto.
      + exists (root_deme "B" 0). simpl. auto.
      + exists (root_deme "B" 0). simpl. auto. }
  rewrite (H mixed_graph) by auto. rewrite (H mixed_graph') by auto.
  reflexivity.
Qed.

Lemma inf_start_time_same_times_witness :
  inf_start_time mixed_graph (1 / 10) false
  = inf_start_time mixed_graph' (1 / 10) false.
Proof.
  apply (inf_start_time_same_times mixed_graph mixed_graph' (1 / 10) false).
  exact first_epoch_time_mixed.
Defined.

(** ** Loops that complete, and what they issue *)

Lemma dbind_Ok_intro {A B : Type} (m : Draw A) (f : A -> Draw B) (a : A)
  (b : B) (w1 w2 : list DrawCall) :
  m = (Ok a, w1) -> f a = (Ok b, w2) -> dbind m f = (Ok b, (w1 ++ w2)%list).
Proof. intros -> H. simpl. rewrite H. reflexivity. Qed.

Lemma dbind_completes {A : Type} (m : Draw A) (f : A -> Draw unit) :
  (exists a w, m = (Ok a, w)) -> (forall a, completes (f a)) ->
  completes (dbind m f).
Proof.
  intros [a [w Hm]] Hf. destruct (Hf a) as [w' Hw'].
  exists (w ++ w')%list. apply (dbind_Ok_intro m f a tt w w' Hm Hw').
Qed.

Lemma seq_completes (m : Draw unit) (f : unit -> Draw unit) :
  completes m -> completes (f tt) -> completes (dbind m f).
Proof.
  intros [w Hm] [w' Hf]. exists (w ++ w')%list.
  apply (dbind_Ok_intro m f tt tt w w' Hm Hf).
Qed.

Lemma dret_completes : completes (dret tt).
Proof. exists []. reflexivity. Qed.

Lemma emit_completes (c : DrawCall) : completes (emit c).
Proof. exists [c]. reflexivity. Qed.

Lemma for_enumerate_completes {A : Type} (body : nat -> A -> Draw unit)
  (l : list A) (k : nat) :
  (forall i x, nth_error l i = Some x -> completes (body (k + i)%nat x)) ->
  completes (for_enumerate body k l).
Proof.
  revert k. induction l as [| y l IH]; intros k H; cbn [for_enumerate].
  - apply dret_completes.
  - apply seq_completes.
    + specialize (H O y eq_refl). rewrite Nat.add_0_r in H. exact H.
    + apply IH. intros i x Hi. specialize (H (S i) x Hi).
      rewrite Nat.add_succ_r in H. exact H.
Qed.

Lemma for_each_completes {A : Type} (body : A -> Draw unit) (l : list A) :
  (forall x, In x l -> completes (body x)) -> completes (for_each body l).
Proof.
  induction l as [| y l IH]; intro H; cbn [for_each].
  - apply dret_completes.
  - apply seq_completes; [apply H; left; reflexivity |].
    apply IH. intros x Hx. apply H. right. exact Hx.
Qed.

Lemma for_each_Ok_inv {A : Type} (body : A -> Draw unit) (l : list A)
  (w : list DrawCall) :
  for_each body l = (Ok tt, w) ->
  forall x, In x l -> exists wx, body x = (Ok tt, wx) /\ incl wx w.
Proof.
  revert w. induction l as [| y l IH]; intros w H x Hx; [destruct Hx |].
  cbn [for_each] in H. apply dbind_Ok_inv in H.
  destruct H as [[] [w1 [w2 [H1 [H2 Hw]]]]]. subst w.
  destruct Hx as [<- | Hx].
  - exists w1. split; [exact H1 | apply incl_appl, incl_refl].
  - destruct (IH _ H2 x Hx) as [wx [Hb Hincl]].
    exists wx. split; [exact Hb | apply incl_appr; exact Hincl].
Qed.

(** A call of a sequence comes from its first part or from its second. *)
Lemma calls_dbind_In {A B : Type} (m : Draw A) (f : A -> Draw B)
  (c : DrawCall) :
  In c (calls (dbind m f)) ->
  In c (calls m) \/ exists a, In c (calls (f a)).
Proof.
  destruct m as [[a | e] w]; simpl; [| auto].
  destruct (f a) as [r w'] eqn:E. simpl. intro H.
  apply in_app_or in H. destruct H as [H | H]; [left; exact H |].
  right. exists a. rewrite E. exact H.
Qed.

Lemma for_each_calls_In {A : Type} (body : A -> Draw unit) (l : list A)
  (c : DrawCall) :
  In c (calls (for_each body l)) -> exists x, In x l /\ In c (calls (body x)).
Proof.
  induction l as [| y l IH]; cbn [for_each]; [intros [] |].
  intro H. apply calls_dbind_In in H. destruct H as [H | [[] H]].
  - exists y. split; [left; reflexivity | exact H].
  - destruct (IH H) as [x [Hx Hc]]. exists x. split; [right; exact Hx | exact Hc].
Qed.

Lemma count_calls_app (kind : DrawCall -> bool) (w1 w2 : list DrawCall) :
  count_calls kind (w1 ++ w2) = (count_calls kind w1 + count_calls kind w2)%nat.
Proof. unfold count_calls. rewrite filter_app, length_app. reflexivity. Qed.

Lemma count_calls_none (kind : DrawCall -> bool) (w : list DrawCall) :
  (forall c, In c w -> kind c = false) -> count_calls kind w = O.
Proof.
  unfold count_calls. induction w as [| c w IH]; intro H; [reflexivity |].
  simpl. rewrite (H c) by (left; reflexivity).
  apply IH. intros c' Hc'. apply H. right. exact Hc'.
Qed.

(** The calls of a kind in a loop that completes, each turn issuing a number
    of them that depends on its element only. *)
Lemma for_enumerate_count {A : Type} (kind : DrawCall -> bool)
  (body : nat -> A -> Draw unit) (n : A -> nat) (l : list A) (k : nat)
  (w : list DrawCall) :
  (forall i x w', In x l -> body i x = (Ok tt, w') ->
     count_calls kind w' = n x) ->
  for_enumerate body k l = (Ok tt, w) ->
  count_calls kind w = list_sum (map n l).
Proof.
  revert k w. induction l as [| y l IH]; intros k w Hn H.
  - cbn in H. injection H as <-. reflexivity.
  - cbn [for_enumerate] in H. apply dbind_Ok_inv in H.
    destruct H as [[] [w1 [w2 [H1 [H2 ->]]]]].
    rewrite count_calls_app. cbn [map list_sum].
    rewrite (Hn k y w1 (or_introl eq_refl) H1).
    rewrite (IH (S k) w2); [reflexivity | | exact H2].
    intros i x w' Hx. apply Hn. right. exact Hx.
Qed.

Lemma list_sum_ones {A : Type} (l : list A) :
  list_sum (map (fun _ => 1%nat) l) = List.length l.
Proof. induction l as [| x l IH]; simpl; [| rewrite IH]; reflexivity. Qed.

Lemma list_sum_zeros {A : Type} (l : list A) :
  list_sum (map (fun _ => O) l) = O.
Proof. induction l as [| x l IH]; simpl; [reflexivity | exact IH]. Qed.

Lemma list_sum_indicator {A : Type} (p : A -> bool) (l : list A) :
  list_sum (map (fun x => if p x then 1%nat else O) l)
  = List.length (filter p l).
Proof.
  induction l as [| x l IH]; simpl; [reflexivity |].
  destruct (p x); simpl; rewrite IH; reflexivity.
Qed.

(** ** The graph without demes *)

(** On a graph without demes [size_history] raises the [ValueError] of the
    maximum of no time, whatever the options, and issues no call. *)
Theorem size_history_no_deme
  (size_of_deme_at_time : Deme -> time -> result R) (o : Options) (g : Graph) :
  demes g = [] ->
  size_history size_of_deme_at_time o g
  = (Err (ValueError "max() arg is an empty sequence"), []).
Proof.
  intro H.
  assert (Hcm : exists cm, choose_cmap o g = Ok cm).
  { unfold choose_cmap. rewrite H. destruct (cmap o) as [c |]; eexists;
      reflexivity. }
  destruct Hcm as [cm Hcm].
  rewrite (size_history_with_cmap size_of_deme_at_time o g cm Hcm).
  unfold draw_with, inf_start_time, epoch0_times. rewrite H. reflexivity.
Qed.

Lemma size_history_no_deme_witness :
  size_history constant_size_of_deme_at_time default_options empty_graph
  = (Err (ValueError "max() arg is an empty sequence"), []).
Proof.
  apply (size_history_no_deme constant_size_of_deme_at_time default_options
           empty_graph).
  reflexivity.
Defined.

(** ** The samples of an epoch stay within its bounds *)

(** The normalized progress of sample [i] of [n]. *)
Lemma progress_bounds (n i : nat) :
  (i < n)%nat -> 0 <= INR i / INR (n - 1) <= 1.
Proof.
  intro H. destruct (Nat.eq_dec n 1) as [-> | Hn].
  - assert (i = O) by lia. subst i. simpl. unfold Rdiv. rewrite Rmult_0_l. lra.
  - assert (Hpos : 0 < INR (n - 1)) by (apply lt_0_INR; lia).
    assert (Hi : 0 <= INR i) by apply pos_INR.
    assert (Hle : INR i <= INR (n - 1)) by (apply le_INR; lia).
    split.
    + apply Rmult_le_pos; [exact Hi | left; apply Rinv_0_lt_compat; exact Hpos].
    + apply (Rmult_le_reg_r (INR (n - 1))); [exact Hpos |].
      unfold Rdiv. rewrite Rmult_assoc, Rinv_l by lra. lra.
Qed.

Lemma progress_increasing (n i : nat) :
  (S i < n)%nat -> INR i / INR (n - 1) <= INR (S i) / INR (n - 1).
Proof.
  intro H.
  assert (Hpos : 0 < / INR (n - 1))
    by (apply Rinv_0_lt_compat, lt_0_INR; lia).
  rewrite S_INR. unfold Rdiv. nra.
Qed.

Lemma linspace_nth_progress (a b : R) (n i : nat) :
  (i < n)%nat ->
  nth i (linspace a b n) 0 = a + (INR i / INR (n - 1)) * (b - a).
Proof.
  intro H. rewrite linspace_nth by exact H. unfold Rdiv. ring.
Qed.

Lemma linspace_within (a b : R) (n i : nat) :
  (i < n)%nat ->
  Rmin a b <= nth i (linspace a b n) 0 <= Rmax a b.
Proof.
  intro H. rewrite linspace_nth_progress by exact H.
  pose proof (progress_bounds n i H) as Ht.
  unfold Rmin, Rmax. destruct (Rle_dec a b); nra.
Qed.

Lemma plot_end_time_log_pos (o : Options) (epoch : Epoch) :
  log_x o = true -> 0 <= end_time epoch -> 0 < plot_end_time o epoch.
Proof.
  intros Hlog Hend. unfold plot_end_time. rewrite Hlog, andb_true_r.
  destruct (Reqb (end_time epoch) 0) eqn:E; [lra |].
  apply Reqb_neq in E. lra.
Qed.

(** Every time of the line of an epoch lies between its plotted end time and
    its plotted start time; on a logarithmic axis, with an end time that is
    not negative and a positive start time, every such time is positive. *)
Theorem epoch_xy_times_within (o : Options) (inf_t : R) (k : nat)
  (epoch : Epoch) (x y : list R) :
  epoch_xy o inf_t k epoch = Ok (x, y) ->
  (forall i, (i < List.length x)%nat ->
     Rmin (plot_start_time inf_t epoch) (plot_end_time o epoch)
       <= nth i x 0
       <= Rmax (plot_start_time inf_t epoch) (plot_end_time o epoch)) /\
  (log_x o = true -> 0 <= end_time epoch ->
   0 < plot_start_time inf_t epoch ->
   forall i, (i < List.length x)%nat -> 0 < nth i x 0).
Proof.
  intro H.
  assert (Hin : forall i, (i < List.length x)%nat ->
            Rmin (plot_start_time inf_t epoch) (plot_end_time o epoch)
              <= nth i x 0
              <= Rmax (plot_start_time inf_t epoch) (plot_end_time o epoch)).
  { destruct (epoch_xy_Ok_inv _ _ _ _ _ _ H)
      as [[_ [-> _]] | [_ [r [_ [-> _]]]]].
    - intros i Hi. simpl in Hi.
      pose proof (Rmin_l (plot_start_time inf_t epoch) (plot_end_time o epoch)).
      pose proof (Rmin_r (plot_start_time inf_t epoch) (plot_end_time o epoch)).
      pose proof (Rmax_l (plot_start_time inf_t epoch) (plot_end_time o epoch)).
      pose proof (Rmax_r (plot_start_time inf_t epoch) (plot_end_time o epoch)).
      destruct i as [| [| i]]; simpl; [lra | lra | lia].
    - intros i Hi. rewrite linspace_length in Hi.
      apply linspace_within. exact Hi. }
  split; [exact Hin |].
  intros Hlog Hend Hstart i Hi.
  pose proof (plot_end_time_log_pos o epoch Hlog Hend) as Hpos.
  destruct (Hin i Hi) as [Hlo _].
  apply Rlt_le_trans with
    (Rmin (plot_start_time inf_t epoch) (plot_end_time o epoch));
    [| exact Hlo].
  apply Rmin_glb_lt; assumption.
Qed.

Lemma epoch_xy_times_within_witness :
  (forall i, (i < List.length [113; 100])%nat ->
     Rmin (plot_start_time 113 (root_epoch 100))
          (plot_end_time default_options (root_epoch 100))
       <= nth i [113; 100] 0
       <= Rmax (plot_start_time 113 (root_epoch 100))
               (plot_end_time default_options (root_epoch 100))) /\
  (log_x default_options = true -> 0 <= end_time (root_epoch 100) ->
   0 < plot_start_time 113 (root_epoch 100) ->
   forall i, (i < List.length [113; 100])%nat -> 0 < nth i [113; 100] 0).
Proof.
  apply (epoch_xy_times_within default_options 113 0 (root_epoch 100)
           [113; 100] [1000; 1000]).
  rewrite epoch_xy_constant by reflexivity.
  rewrite plot_end_time_linear by reflexivity. reflexivity.
Defined.

Lemma ln_le_compat (x y : R) : 0 < x -> x <= y -> ln x <= ln y.
Proof.
  intros Hx [H | H]; [left; apply ln_increasing; assumption | subst; lra].
Qed.

Lemma exp_size_within (epoch : Epoch) (t : R) :
  0 < start_size epoch -> 0 < end_size epoch -> 0 <= t <= 1 ->
  Rmin (start_size epoch) (end_size epoch)
    <= exp_size epoch (ln (end_size epoch / start_size epoch)) t
    <= Rmax (start_size epoch) (end_size epoch).
Proof.
  intros Hs He Ht. unfold exp_size.
  set (s := start_size epoch) in *. set (e := end_size epoch) in *.
  assert (Hq : 0 < e / s) by (apply Rdiv_lt_0_compat; assumption).
  assert (Hexp : s * exp (ln (e / s)) = e)
    by (rewrite (exp_ln _ Hq); field; lra).
  unfold Rmin, Rmax. destruct (Rle_dec s e) as [L | L].
  - assert (Hr : 0 <= ln (e / s)).
    { rewrite <- ln_1. apply ln_le_compat; [lra |].
      apply (Rmult_le_reg_r s); [exact Hs |].
      unfold Rdiv. rewrite Rmult_assoc, Rinv_l by lra. lra. }
    assert (H1 : exp 0 <= exp (ln (e / s) * t)) by (apply exp_le_compat; nra).
    assert (H2 : exp (ln (e / s) * t) <= exp (ln (e / s)))
      by (apply exp_le_compat; nra).
    rewrite exp_0 in H1. split; nra.
  - assert (Hr : ln (e / s) <= 0).
    { rewrite <- ln_1. apply ln_le_compat; [exact Hq |].
      apply (Rmult_le_reg_r s); [exact Hs |].
      unfold Rdiv. rewrite Rmult_assoc, Rinv_l by lra. lra. }
    assert (H1 : exp (ln (e / s) * t) <= exp 0) by (apply exp_le_compat; nra).
    assert (H2 : exp (ln (e / s)) <= exp (ln (e / s) * t))
      by (apply exp_le_compat; nra).
    rewrite exp_0 in H1. split; nra.
Qed.

Lemma exp_size_monotone (epoch : Epoch) (t t' : R) :
  0 < start_size epoch -> 0 < end_size epoch -> t <= t' ->
  (start_size epoch <= end_size epoch ->
     exp_size epoch (ln (end_size epoch / start_size epoch)) t
       <= exp_size epoch (ln (end_size epoch / start_size epoch)) t') /\
  (end_size epoch <= start_size epoch ->
     exp_size epoch (ln (end_size epoch / start_size epoch)) t'
       <= exp_size epoch (ln (end_size epoch / start_size epoch)) t).
Proof.
  intros Hs He Ht. unfold exp_size.
  set (s := start_size epoch) in *. set (e := end_size epoch) in *.
  assert (Hq : 0 < e / s) by (apply Rdiv_lt_0_compat; assumption).
  split; intro L.
  - assert (Hr : 0 <= ln (e / s)).
    { rewrite <- ln_1. apply ln_le_compat; [lra |].
      apply (Rmult_le_reg_r s); [exact Hs |].
      unfold Rdiv. rewrite Rmult_assoc, Rinv_l by lra. lra. }
    apply Rmult_le_compat_l; [lra |]. apply exp_le_compat. nra.
  - assert (Hr : ln (e / s) <= 0).
    { rewrite <- ln_1. apply ln_le_compat; [exact Hq |].
      apply (Rmult_le_reg_r s); [exact Hs |].
      unfold Rdiv. rewrite Rmult_assoc, Rinv_l by lra. lra. }
    apply Rmult_le_compat_l; [lra |]. apply exp_le_compat. nra.
Qed.

(** The sizes sampled along an exponential epoch with positive sizes are
    positive, lie between the start size and the end size, and run from the
    one to the other without turning back. *)
Theorem exp_samples_within (o : Options) (inf_t : R) (k : nat)
  (epoch : Epoch) (x y : list R) :
  size_function epoch = "exponential" ->
  0 < start_size epoch -> 0 < end_size epoch ->
  epoch_xy o inf_t k epoch = Ok (x, y) ->
  (forall i, (i < num_exp_points o)%nat ->
     0 < nth i y 0 /\
     Rmin (start_size epoch) (end_size epoch) <= nth i y 0
       <= Rmax (start_size epoch) (end_size epoch)) /\
  (start_size epoch <= end_size epoch ->
     forall i, (S i < num_exp_points o)%nat -> nth i y 0 <= nth (S i) y 0) /\
  (end_size epoch <= start_size epoch ->
     forall i, (S i < num_exp_points o)%nat -> nth (S i) y 0 <= nth i y 0).
Proof.
  intros Hf Hs He H.
  rewrite (epoch_xy_exponential o inf_t k epoch Hf) in H.
  rewrite (exp_rate_pos epoch Hs He) in H. simpl in H.
  injection H as _ <-.
  assert (Hnth : forall i, (i < num_exp_points o)%nat ->
            nth i (map (exp_size epoch
                          (ln (end_size epoch / start_size epoch)))
                       (linspace 0 1 (num_exp_points o))) 0
            = exp_size epoch (ln (end_size epoch / start_size epoch))
                (INR i / INR (num_exp_points o - 1))).
  { intros i Hi. rewrite exp_size_nth by exact Hi.
    rewrite linspace_nth_progress by exact Hi. f_equal. ring. }
  split; [| split].
  - intros i Hi. rewrite (Hnth i Hi).
    pose proof (exp_size_within epoch _ Hs He
                  (progress_bounds (num_exp_points o) i Hi)) as Hb.
    split; [| exact Hb].
    apply Rlt_le_trans with (Rmin (start_size epoch) (end_size epoch));
      [apply Rmin_glb_lt; assumption | apply Hb].
  - intros L i Hi. rewrite (Hnth i) by lia. rewrite (Hnth (S i) Hi).
    apply (exp_size_monotone epoch _ _ Hs He
             (progress_increasing (num_exp_points o) i Hi)).
    exact L.
  - intros L i Hi. rewrite (Hnth i) by lia. rewrite (Hnth (S i) Hi).
    apply (exp_size_monotone epoch _ _ Hs He
             (progress_increasing (num_exp_points o) i Hi)).
    exact L.
Qed.

Lemma recent_exponential_xy :
  epoch_xy default_options 113 1 (recent_epoch 1000 2000 "exponential")
  = Ok (linspace 100 0 100,
        map (exp_size (recent_epoch 1000 2000 "exponential")
               (ln (2000 / 1000)))
            (linspace 0 1 100)).
Proof.
  rewrite epoch_xy_exponential by reflexivity.
  rewrite exp_rate_pos by (simpl; lra).
  rewrite plot_end_time_linear by reflexivity. reflexivity.
Qed.

Lemma exp_samples_within_witness :
  (forall i, (i < num_exp_points default_options)%nat ->
     0 < nth i (map (exp_size (recent_epoch 1000 2000 "exponential")
                       (ln (2000 / 1000))) (linspace 0 1 100)) 0 /\
     Rmin (start_size (recent_epoch 1000 2000 "exponential"))
          (end_size (recent_epoch 1000 2000 "exponential"))
       <= nth i (map (exp_size (recent_epoch 1000 2000 "exponential")
                        (ln (2000 / 1000))) (linspace 0 1 100)) 0
       <= Rmax (start_size (recent_epoch 1000 2000 "exponential"))
               (end_size (recent_epoch 1000 2000 "exponential"))) /\
  (start_size (recent_epoch 1000 2000 "exponential")
     <= end_size (recent_epoch 1000 2000 "exponential") ->
     forall i, (S i < num_exp_points default_options)%nat ->
       nth i (map (exp_size (recent_epoch 1000 2000 "exponential")
                     (ln (2000 / 1000))) (linspace 0 1 100)) 0
       <= nth (S i) (map (exp_size (recent_epoch 1000 2000 "exponential")
                            (ln (2000 / 1000))) (linspace 0 1 100)) 0) /\
  (end_size (recent_epoch 1000 2000 "exponential")
     <= start_size (recent_epoch 1000 2000 "exponential") ->
     forall i, (S i < num_exp_points default_options)%nat ->
       nth (S i) (map (exp_size (recent_epoch 1000 2000 "exponential")
                         (ln (2000 / 1000))) (linspace 0 1 100)) 0
       <= nth i (map (exp_size (recent_epoch 1000 2000 "exponential")
                        (ln (2000 / 1000))) (linspace 0 1 100)) 0).
Proof.
  apply (exp_samples_within default_options 113 1
           (recent_epoch 1000 2000 "exponential") (linspace 100 0 100)).
  - reflexivity.
  - simpl. lra.
  - simpl. lra.
  - exact recent_exponential_xy.
Defined.

(** ** The label of an epoch *)

Lemma geometric_mean (a b : R) :
  0 < a -> 0 < b -> exp ((ln a + ln b) / 2) = sqrt (a * b).
Proof.
  intros Ha Hb. symmetry. apply sqrt_lem_1.
  - left. apply Rmult_lt_0_compat; assumption.
  - left. apply exp_pos.
  - rewrite <- exp_plus.
    replace ((ln a + ln b) / 2 + (ln a + ln b) / 2) with (ln a + ln b) by field.
    rewrite exp_plus, (exp_ln a Ha), (exp_ln b Hb). reflexivity.
Qed.

Lemma geometric_mean_within (a b : R) :
  0 < a -> 0 < b -> Rmin a b <= sqrt (a * b) <= Rmax a b.
Proof.
  intros Ha Hb.
  assert (H : forall u v, 0 < u -> u <= v -> u <= sqrt (u * v) <= v).
  { intros u v Hu Huv. split.
    - rewrite <- (sqrt_square u) at 1 by lra. apply sqrt_le_1_alt. nra.
    - rewrite <- (sqrt_square v) at 2 by lra. apply sqrt_le_1_alt. nra. }
  unfold Rmin, Rmax. destruct (Rle_dec a b) as [L | L].
  - apply H; assumption.
  - rewrite Rmult_comm. apply H; lra.
Qed.

(** The call [annotate_epoch] issues when its logarithms are defined. *)
Lemma annotate_epoch_Ok (o : Options) (g : Graph) (inf_t : R)
  (colour : Colour) (lw : Z) (k : nat) (epoch : Epoch) :
  (log_x o = true ->
     0 < plot_start_time inf_t epoch /\ 0 < plot_end_time o epoch) ->
  (log_y o = true -> 0 < 1 + start_size epoch /\ 0 < 1 + end_size epoch) ->
  annotate_epoch o g inf_t colour lw k epoch
  = (Ok tt,
     [annotate ("epoch " ++ str_of_nat k)
        (if log_x o then
           exp ((ln (plot_start_time inf_t epoch)
                 + ln (plot_end_time o epoch)) / 2)
         else (plot_start_time inf_t epoch + plot_end_time o epoch) / 2,
         if log_y o then
           exp ((ln (1 + start_size epoch) + ln (1 + end_size epoch)) / 2)
         else (start_size epoch + end_size epoch) / 2)
        (0, 4 + IZR lw / 2) "center" "bottom"
        (Some (if (List.length (demes g) =? 1)%nat then named_colour "black"
               else colour))]).
Proof.
  intros Hx Hy. unfold annotate_epoch.
  destruct (log_x o).
  - destruct (Hx eq_refl) as [Hs He].
    rewrite (np_log_pos _ Hs), (np_log_pos _ He). cbn [rbind].
    rewrite dbind_lift_Ok.
    destruct (log_y o).
    + destruct (Hy eq_refl) as [Hs' He'].
      rewrite (np_log_pos _ Hs'), (np_log_pos _ He'). reflexivity.
    + reflexivity.
  - rewrite dbind_lift_Ok.
    destruct (log_y o).
    + destruct (Hy eq_refl) as [Hs' He'].
      rewrite (np_log_pos _ Hs'), (np_log_pos _ He'). reflexivity.
    + reflexivity.
Qed.

(** The label "epoch k" of an epoch sits at the middle of its line: at the
    arithmetic mean of the two plotted times on a linear axis, at their
    geometric mean on a logarithmic axis, and likewise for the sizes (plus
    one on a logarithmic axis); it lies between the two times.  It is black
    when the graph has one deme and has the colour of the deme otherwise. *)
Theorem annotate_epoch_position (o : Options) (g : Graph) (inf_t : R)
  (colour : Colour) (lw : Z) (k : nat) (epoch : Epoch) :
  (log_x o = true ->
     0 < plot_start_time inf_t epoch /\ 0 < plot_end_time o epoch) ->
  (log_y o = true -> 0 < 1 + start_size epoch /\ 0 < 1 + end_size epoch) ->
  exists text_x text_y,
    annotate_epoch o g inf_t colour lw k epoch
    = (Ok tt,
       [annotate ("epoch " ++ str_of_nat k) (text_x, text_y)
          (0, 4 + IZR lw / 2) "center" "bottom"
          (Some (if (List.length (demes g) =? 1)%nat then named_colour "black"
                 else colour))]) /\
    text_x = (if log_x o then
                sqrt (plot_start_time inf_t epoch * plot_end_time o epoch)
              else (plot_start_time inf_t epoch + plot_end_time o epoch) / 2) /\
    text_y = (if log_y o then
                sqrt ((1 + start_size epoch) * (1 + end_size epoch))
              else (start_size epoch + end_size epoch) / 2) /\
    Rmin (plot_start_time inf_t epoch) (plot_end_time o epoch) <= text_x
      <= Rmax (plot_start_time inf_t epoch) (plot_end_time o epoch).
Proof.
  intros Hx Hy. eexists. eexists.
  split; [apply (annotate_epoch_Ok o g inf_t colour lw k epoch Hx Hy) |].
  split; [| split].
  - destruct (log_x o); [| reflexivity].
    destruct (Hx eq_refl). apply geometric_mean; assumption.
  - destruct (log_y o); [| reflexivity].
    destruct (Hy eq_refl). apply geometric_mean; assumption.
  - destruct (log_x o).
    + destruct (Hx eq_refl) as [Hs He].
      rewrite (geometric_mean _ _ Hs He).
      apply geometric_mean_within; assumption.
    + unfold Rmin, Rmax.
      destruct (Rle_dec (plot_start_time inf_t epoch) (plot_end_time o epoch));
        lra.
Qed.

Lemma annotate_epoch_position_witness :
  exists text_x text_y,
    annotate_epoch log_x_options (root_graph 0) 113 (cmap_colour "tab10" 0) 2
      1 (recent_epoch 1000 2000 "exponential")
    = (Ok tt,
       [annotate ("epoch " ++ str_of_nat 1) (text_x, text_y)
          (0, 4 + IZR 2 / 2) "center" "bottom"
          (Some (if (List.length (demes (root_graph 0)) =? 1)%nat
                 then named_colour "black" else cmap_colour "tab10" 0))]) /\
    text_x = (if log_x log_x_options then
                sqrt (plot_start_time 113 (recent_epoch 1000 2000 "exponential")
                      * plot_end_time log_x_options
                          (recent_epoch 1000 2000 "exponential"))
              else (plot_start_time 113 (recent_epoch 1000 2000 "exponential")
                    + plot_end_time log_x_options
                        (recent_epoch 1000 2000 "exponential")) / 2) /\
    text_y = (if log_y log_x_options then
                sqrt ((1 + start_size (recent_epoch 1000 2000 "exponential"))
                      * (1 + end_size (recent_epoch 1000 2000 "exponential")))
              else (start_size (recent_epoch 1000 2000 "exponential")
                    + end_size (recent_epoch 1000 2000 "exponential")) / 2) /\
    Rmin (plot_start_time 113 (recent_epoch 1000 2000 "exponential"))
         (plot_end_time log_x_options (recent_epoch 1000 2000 "exponential"))
      <= text_x
      <= Rmax (plot_start_time 113 (recent_epoch 1000 2000 "exponential"))
              (plot_end_time log_x_options
                 (recent_epoch 1000 2000 "exponential")).
Proof.
  apply (annotate_epoch_position log_x_options (root_graph 0) 113
           (cmap_colour "tab10" 0) 2 1 (recent_epoch 1000 2000 "exponential")).
  - intros _. split; [unfold plot_start_time; simpl; lra |].
    apply plot_end_time_log_pos; [reflexivity | simpl; lra].
  - intro H. discriminate H.
Defined.

(** ** The calls of a run that completes *)

Lemma plot_discontinuity_calls (deme : Deme) (dk : LineKwargs) (k : nat)
  (epoch : Epoch) (c : DrawCall) :
  In c (calls (plot_discontinuity deme dk k epoch)) ->
  exists x y, c = plot x y dk.
Proof.
  unfold plot_discontinuity, getitem.
  destruct (0 <? k)%nat; [| intros []].
  destruct (nth_error (epochs deme) (k - 1)) as [prev |]; [| intros []].
  rewrite dbind_lift_Ok.
  destruct (negb (Reqb (end_size prev) (start_size epoch)));
    simpl; intro H; [destruct H as [<- | []] | destruct H].
  eexists. eexists. reflexivity.
Qed.

(** The parts of a turn of the epoch loop that completes. *)
Lemma plot_epoch_Ok_inv (o : Options) (g : Graph) (cm : Colormap) (inf_t : R)
  (j : nat) (deme : Deme) (k : nat) (epoch : Epoch) (w : list DrawCall) :
  plot_epoch o g cm inf_t j deme k epoch = (Ok tt, w) ->
  exists xy wd wa,
    epoch_xy o inf_t k epoch = Ok xy /\
    plot_discontinuity deme (discontinuity_kwargs_of g cm j) k epoch
      = (Ok tt, wd) /\
    (if annotate_epochs o then
       annotate_epoch o g inf_t (cmap_colour cm j) (deme_linewidth j) k epoch
     else dret tt) = (Ok tt, wa) /\
    w = (plot (map Finite (fst xy)) (snd xy) (plot_kwargs_of g cm j deme)
           :: wd ++ wa)%list.
Proof.
  unfold plot_epoch. intro H.
  destruct (epoch_xy o inf_t k epoch) as [xy | e]; [| discriminate H].
  rewrite dbind_lift_Ok in H.
  apply dbind_Ok_inv in H. destruct H as [[] [w1 [w2 [H1 [H2 ->]]]]].
  unfold emit in H1. injection H1 as <-.
  apply dbind_Ok_inv in H2. destruct H2 as [[] [wd [wa [Hd [Ha ->]]]]].
  exists xy, wd, wa. repeat split; assumption.
Qed.

Lemma plot_epoch_counts (o : Options) (g : Graph) (cm : Colormap) (inf_t : R)
  (j : nat) (deme : Deme) (k : nat) (epoch : Epoch) (w : list DrawCall) :
  plot_epoch o g cm inf_t j deme k epoch = (Ok tt, w) ->
  count_calls is_solid_line w = 1%nat /\ count_calls is_marker w = O.
Proof.
  intro H. apply plot_epoch_Ok_inv in H.
  destruct H as [xy [wd [wa [_ [Hd [Ha ->]]]]]].
  assert (Hwd : forall c, In c wd -> exists x y,
                  c = plot x y (discontinuity_kwargs_of g cm j)).
  { intros c Hc. apply (plot_discontinuity_calls deme _ k epoch).
    rewrite Hd. exact Hc. }
  assert (Hwa : forall c, In c wa -> exists text xy' xytext ha va col,
                  c = annotate text xy' xytext ha va col).
  { intros c Hc. destruct (annotate_epochs o).
    - apply (annotate_epoch_calls o g inf_t (cmap_colour cm j)
               (deme_linewidth j) k epoch).
      rewrite Ha. exact Hc.
    - injection Ha as <-. destruct Hc. }
  destruct (plot_kwargs_not_dotted g cm j deme) as [Hs Hdot].
  split.
  - change (count_calls is_solid_line
              ([plot (map Finite (fst xy)) (snd xy) (plot_kwargs_of g cm j deme)]
               ++ wd ++ wa) = 1%nat).
    rewrite !count_calls_app.
    rewrite (count_calls_none is_solid_line wd).
    + rewrite (count_calls_none is_solid_line wa).
      * unfold count_calls. cbn [filter is_solid_line]. rewrite Hs.
        reflexivity.
      * intros c Hc. destruct (Hwa c Hc) as [? [? [? [? [? [? ->]]]]]].
        reflexivity.
    + intros c Hc. destruct (Hwd c Hc) as [x [y ->]]. cbn [is_solid_line].
      rewrite Hdot. reflexivity.
  - apply count_calls_none. intros c [<- | Hc]; [reflexivity |].
    apply in_app_or in Hc. destruct Hc as [Hc | Hc].
    + destruct (Hwd c Hc) as [x [y ->]]. reflexivity.
    + destruct (Hwa c Hc) as [? [? [? [? [? [? ->]]]]]]. reflexivity.
Qed.

Section CompletedRuns.

Variable size_of_deme_at_time : Deme -> time -> result R.

(** An ancestor connector is a dotted vertical line at the start time of the
    deme, between two sizes that differ. *)
Lemma plot_ancestors_calls (g : Graph) (dk : LineKwargs) (deme : Deme)
  (c : DrawCall) :
  In c (calls (plot_ancestors size_of_deme_at_time g dk deme)) ->
  exists anc_N,
    c = plot [deme_start_time deme; deme_start_time deme]
             [anc_N; start_size (epoch0 deme)] dk /\
    anc_N <> start_size (epoch0 deme).
Proof.
  unfold plot_ancestors. intro H. apply for_each_calls_In in H.
  destruct H as [a [_ H]].
  destruct (graph_getitem g a) as [anc | e]; [| destruct H].
  rewrite dbind_lift_Ok in H.
  destruct (size_of_deme_at_time anc (deme_start_time deme)) as [anc_N | e];
    [| destruct H].
  rewrite dbind_lift_Ok in H.
  destruct (Reqb anc_N (start_size (epoch0 deme))) eqn:E; simpl in H;
    [destruct H |].
  destruct H as [<- | []]. exists anc_N. split; [reflexivity |].
  apply Reqb_neq. exact E.
Qed.

(** The parts of a turn of the deme loop that completes. *)
Lemma plot_deme_Ok_inv (o : Options) (g : Graph) (cm : Colormap) (inf_t : R)
  (j : nat) (deme : Deme) (w : list DrawCall) :
  plot_deme size_of_deme_at_time o g cm inf_t j deme = (Ok tt, w) ->
  exists we wa wn,
    for_enumerate (plot_epoch o g cm inf_t j deme) 0 (epochs deme)
      = (Ok tt, we) /\
    plot_inf_arrow o g inf_t (cmap_colour cm j) deme = (Ok tt, wa) /\
    plot_ancestors size_of_deme_at_time g (discontinuity_kwargs_of g cm j) deme
      = (Ok tt, wn) /\
    w = (we ++ wa ++ wn)%list.
Proof.
  unfold plot_deme. intro H.
  apply dbind_Ok_inv in H. destruct H as [[] [we [w2 [He [H2 ->]]]]].
  apply dbind_Ok_inv in H2. destruct H2 as [[] [wa [wn [Ha [Hn ->]]]]].
  exists we, wa, wn. repeat split; assumption.
Qed.

Lemma plot_deme_counts (o : Options) (g : Graph) (cm : Colormap) (inf_t : R)
  (j : nat) (deme : Deme) (w : list DrawCall) :
  plot_deme size_of_deme_at_time o g cm inf_t j deme = (Ok tt, w) ->
  count_calls is_solid_line w = List.length (epochs deme) /\
  count_calls is_marker w
    = (if isinf (deme_start_time deme) then 1%nat else O).
Proof.
  intro H. apply plot_deme_Ok_inv in H.
  destruct H as [we [wa [wn [He [Ha [Hn ->]]]]]].
  assert (Hwn : forall c, In c wn ->
            is_solid_line c = false /\ is_marker c = false).
  { intros c Hc.
    destruct (plot_ancestors_calls g (discontinuity_kwargs_of g cm j) deme c)
      as [anc_N [-> _]]; [rewrite Hn; exact Hc |].
    cbn [is_solid_line is_marker].
    rewrite (proj2 (plot_kwargs_not_dotted g cm j deme)).
    split; reflexivity. }
  rewrite plot_inf_arrow_spec in Ha. injection Ha as <-.
  rewrite !count_calls_app. split.
  - rewrite (for_enumerate_count is_solid_line _ (fun _ => 1%nat) _ _ _
               (fun i x w' _ Hw' =>
                  proj1 (plot_epoch_counts o g cm inf_t j deme i x w' Hw')) He).
    rewrite list_sum_ones.
    rewrite (count_calls_none is_solid_line wn)
      by (intros c Hc; apply (Hwn c Hc)).
    destruct (deme_start_time deme); [| destruct (inf_label o)];
      unfold count_calls; simpl; lia.
  - rewrite (for_enumerate_count is_marker _ (fun _ => O) _ _ _
               (fun i x w' _ Hw' =>
                  proj2 (plot_epoch_counts o g cm inf_t j deme i x w' Hw')) He).
    rewrite (count_calls_none is_marker wn)
      by (intros c Hc; apply (Hwn c Hc)).
    rewrite list_sum_zeros.
    destruct (deme_start_time deme); [| destruct (inf_label o)];
      unfold count_calls; simpl; lia.
Qed.

(** The legend, the title and the axes never fail, and hold no line and no
    marker. *)
Lemma arrange_axes_completes (o : Options) (g : Graph) (cm : Colormap)
  (inf_t : R) :
  completes (arrange_axes o g cm inf_t) /\
  count_calls is_solid_line (calls (arrange_axes o g cm inf_t)) = O /\
  count_calls is_marker (calls (arrange_axes o g cm inf_t)) = O.
Proof.
  unfold arrange_axes, completes.
  destruct (1 <? List.length (demes g))%nat; destruct (title o);
    destruct (invert_x o); destruct (log_x o); destruct (log_y o);
    (split; [eexists; reflexivity | split; reflexivity]).
Qed.

(** The parts of a run that completes. *)
Lemma size_history_Ok_parts (o : Options) (g : Graph) (w : list DrawCall) :
  size_history size_of_deme_at_time o g = (Ok tt, w) ->
  exists cm inf_t wl wx,
    choose_cmap o g = Ok cm /\
    inf_start_time g (inf_ratio o) (log_x o) = Ok inf_t /\
    for_enumerate (plot_deme size_of_deme_at_time o g cm inf_t) 0 (demes g)
      = (Ok tt, wl) /\
    arrange_axes o g cm inf_t = (Ok tt, wx) /\
    w = (wl ++ wx)%list.
Proof.
  intro H. unfold size_history in H.
  apply dbind_Ok_inv in H. destruct H as [cm [w0 [w1 [Hcm [H ->]]]]].
  unfold lift in Hcm. injection Hcm as Hcm <-.
  unfold draw_with in H.
  apply dbind_Ok_inv in H. destruct H as [inf_t [w2 [w3 [Hinf [H ->]]]]].
  unfold lift in Hinf. injection Hinf as Hinf <-.
  apply dbind_Ok_inv in H. destruct H as [[] [wl [wx [Hl [Hx ->]]]]].
  exists cm, inf_t, wl, wx. repeat split; assumption.
Qed.

(** A run that completes has drawn exactly one solid line for each epoch of
    each deme: the connectors are dotted, and nothing else is a line. *)
Theorem size_history_one_line_per_epoch (o : Options) (g : Graph)
  (w : list DrawCall) :
  size_history size_of_deme_at_time o g = (Ok tt, w) ->
  count_calls is_solid_line w = epoch_count g.
Proof.
  intro H. apply size_history_Ok_parts in H.
  destruct H as [cm [inf_t [wl [wx [_ [_ [Hl [Hx ->]]]]]]]].
  rewrite count_calls_app.
  destruct (arrange_axes_completes o g cm inf_t) as [_ [Hz _]].
  rewrite Hx in Hz. simpl in Hz. rewrite Hz, Nat.add_0_r.
  apply (for_enumerate_count is_solid_line _
           (fun deme => List.length (epochs deme)) _ _ _
           (fun i x w' _ Hw' =>
              proj1 (plot_deme_counts o g cm inf_t i x w' Hw')) Hl).
Qed.

(** A run that completes has drawn exactly one arrowhead for each deme that
    starts at infinity, and no other marker. *)
Theorem size_history_one_arrow_per_root (o : Options) (g : Graph)
  (w : list DrawCall) :
  size_history size_of_deme_at_time o g = (Ok tt, w) ->
  count_calls is_marker w = root_count g.
Proof.
  intro H. apply size_history_Ok_parts in H.
  destruct H as [cm [inf_t [wl [wx [_ [_ [Hl [Hx ->]]]]]]]].
  rewrite count_calls_app.
  destruct (arrange_axes_completes o g cm inf_t) as [_ [_ Hz]].
  rewrite Hx in Hz. simpl in Hz. rewrite Hz, Nat.add_0_r.
  rewrite (for_enumerate_count is_marker _
             (fun deme => if isinf (deme_start_time deme) then 1%nat else O)
             _ _ _
             (fun i x w' _ Hw' =>
                proj2 (plot_deme_counts o g cm inf_t i x w' Hw')) Hl).
  apply list_sum_indicator.
Qed.

End CompletedRuns.

(** ** Graphs that are drawn to the end *)

Lemma horizon_positive (g : Graph) (r : R) (ls : bool) :
  demes g <> [] ->
  (forall t, first_epoch_time g t -> 0 <= t) ->
  0 < r < 1 ->
  exists v, inf_start_time g r ls = Ok v /\ 0 < v.
Proof.
  intros Hne Hpos Hr.
  destruct (py_max_nonempty _ (epoch0_times_nonempty g Hne)) as [T HT].
  pose proof (py_max_nonneg g T HT Hpos) as HT0.
  destruct (Req_dec_T T 0) as [E | N].
  - exists 113. subst T. split; [apply inf_start_time_zero; exact HT | lra].
  - destruct ls.
    + exists (exp (ln T / (1 - r))).
      split; [apply inf_start_time_log; [exact HT | lra | lra] | apply exp_pos].
    + exists (T / (1 - r)).
      split; [apply inf_start_time_linear; [exact HT | exact N | lra] |].
      apply Rdiv_lt_0_compat; lra.
Qed.

Lemma nth_error_pred {A : Type} (l : list A) (k : nat) (x : A) :
  nth_error l (S k) = Some x -> exists p, nth_error l k = Some p.
Proof.
  intro H. destruct (nth_error l k) as [p |] eqn:E; [exists p; reflexivity |].
  apply nth_error_None in E.
  assert (Hn : nth_error l (S k) = None) by (apply nth_error_None; lia).
  rewrite Hn in H. discriminate H.
Qed.

Lemma plot_discontinuity_completes (deme : Deme) (dk : LineKwargs) (k : nat)
  (epoch : Epoch) :
  nth_error (epochs deme) k = Some epoch ->
  completes (plot_discontinuity deme dk k epoch).
Proof.
  intro H. destruct k as [| k].
  - exists []. reflexivity.
  - destruct (nth_error_pred _ _ _ H) as [prev Hprev].
    rewrite (plot_discontinuity_next deme dk k prev epoch Hprev).
    eexists. reflexivity.
Qed.

Lemma valid_epoch_xy (o : Options) (inf_t : R) (k : nat) (epoch : Epoch) :
  valid_epoch epoch -> exists xy, epoch_xy o inf_t k epoch = Ok xy.
Proof.
  intros [[Hf | Hf] [Hs [He _]]].
  - rewrite (epoch_xy_constant o inf_t k epoch Hf). eexists. reflexivity.
  - rewrite (epoch_xy_exponential o inf_t k epoch Hf).
    rewrite (exp_rate_pos epoch Hs He). eexists. reflexivity.
Qed.

Lemma valid_epoch_start_pos (inf_t : R) (epoch : Epoch) :
  valid_epoch epoch -> 0 < inf_t -> 0 < plot_start_time inf_t epoch.
Proof.
  intros [_ [_ [_ [_ Hst]]]] Hinf. unfold plot_start_time.
  destruct (start_time epoch) as [t |]; [apply Hst; reflexivity | exact Hinf].
Qed.

Lemma plot_epoch_completes (o : Options) (g : Graph) (cm : Colormap)
  (inf_t : R) (j : nat) (deme : Deme) (k : nat) (epoch : Epoch) :
  valid_epoch epoch -> 0 < inf_t ->
  nth_error (epochs deme) k = Some epoch ->
  completes (plot_epoch o g cm inf_t j deme k epoch).
Proof.
  intros Hv Hinf Hk. unfold plot_epoch.
  destruct (valid_epoch_xy o inf_t k epoch Hv) as [xy Hxy].
  rewrite Hxy, dbind_lift_Ok.
  apply seq_completes; [apply emit_completes |].
  apply seq_completes; [apply plot_discontinuity_completes; exact Hk |].
  destruct (annotate_epochs o); [| apply dret_completes].
  eexists. apply annotate_epoch_Ok.
  - intro Hlog. split; [apply valid_epoch_start_pos; assumption |].
    apply plot_end_time_log_pos; [exact Hlog | apply Hv].
  - intros _. destruct Hv as [_ [Hs [He _]]]. split; lra.
Qed.

Section ValidGraphs.

Variable size_of_deme_at_time : Deme -> time -> result R.

Lemma plot_ancestors_completes (g : Graph) (dk : LineKwargs) (deme : Deme) :
  ancestors_resolve size_of_deme_at_time g deme ->
  completes (plot_ancestors size_of_deme_at_time g dk deme).
Proof.
  intro H. unfold plot_ancestors. apply for_each_completes.
  intros a Ha. destruct (H a Ha) as [anc [anc_N [Hg Hs]]].
  rewrite Hg, dbind_lift_Ok, Hs, dbind_lift_Ok.
  destruct (negb (Reqb anc_N (start_size (epoch0 deme))));
    [apply emit_completes | apply dret_completes].
Qed.

(** A graph as [demes] hands it over is drawn to the end: with at least one
    deme, a colour map given or at most 20 demes, a ratio strictly between 0
    and 1, epochs of a known size function with positive sizes and times
    that are not negative, and ancestors that resolve, [size_history] raises
    nothing, whatever the other options. *)
Theorem size_history_completes (o : Options) (g : Graph) :
  demes g <> [] ->
  (cmap o <> None \/ (List.length (demes g) <= 20)%nat) ->
  0 < inf_ratio o < 1 ->
  (forall deme, In deme (demes g) ->
     forall epoch, In epoch (epochs deme) -> valid_epoch epoch) ->
  (forall deme, In deme (demes g) ->
     ancestors_resolve size_of_deme_at_time g deme) ->
  completes (size_history size_of_deme_at_time o g).
Proof.
  intros Hne Hcm Hr Hv Ha.
  assert (Hc : exists cm, choose_cmap o g = Ok cm).
  { unfold choose_cmap. destruct (cmap o) as [c |]; [eexists; reflexivity |].
    destruct Hcm as [Hcm | Hcm]; [contradiction Hcm; reflexivity |].
    destruct (List.length (demes g) <=? 10)%nat; [eexists; reflexivity |].
    apply Nat.leb_le in Hcm. rewrite Hcm. eexists. reflexivity. }
  destruct Hc as [cm Hc].
  rewrite (size_history_with_cmap size_of_deme_at_time o g cm Hc).
  assert (Htimes : forall t, first_epoch_time g t -> 0 <= t).
  { intros t [d [Hd Ht]].
    destruct (Hv d Hd (epoch0 d) (or_introl eq_refl))
      as [_ [_ [_ [Hend Hst]]]].
    destruct Ht as [-> | Ht]; [exact Hend | left; apply Hst; exact Ht]. }
  destruct (horizon_positive g (inf_ratio o) (log_x o) Hne Htimes Hr)
    as [inf_t [Hinf Hpos]].
  unfold draw_with. rewrite Hinf, dbind_lift_Ok.
  apply seq_completes; [| apply arrange_axes_completes].
  apply for_enumerate_completes. intros j deme Hj.
  assert (Hd : In deme (demes g)) by (apply (nth_error_In _ _ Hj)).
  unfold plot_deme.
  apply seq_completes.
  - apply for_enumerate_completes. intros k epoch Hk.
    apply plot_epoch_completes; [| exact Hpos | exact Hk].
    apply (Hv deme Hd). apply (nth_error_In _ _ Hk).
  - apply seq_completes.
    + rewrite plot_inf_arrow_spec. eexists. reflexivity.
    + apply plot_ancestors_completes. apply Ha. exact Hd.
Qed.

End ValidGraphs.

Lemma valid_root_epoch (t : R) : 0 <= t -> valid_epoch (root_epoch t).
Proof.
  intro H. unfold valid_epoch. simpl.
  repeat split; try lra; [left; reflexivity | intros u Hu; discriminate Hu].
Qed.

Lemma valid_recent_epoch (n0 n1 : R) (f : string) :
  f = "constant" \/ f = "exponential" -> 0 < n0 -> 0 < n1 ->
  valid_epoch (recent_epoch n0 n1 f).
Proof.
  intros Hf H0 H1. unfold valid_epoch. simpl.
  repeat split; try lra; [exact Hf |].
  intros u Hu. injection Hu as <-. lra.
Qed.

Lemma valid_child_epoch : valid_epoch (epoch0 child_deme).
Proof.
  unfold valid_epoch. simpl.
  repeat split; try lra; [left; reflexivity |].
  intros u Hu. injection Hu as <-. lra.
Qed.

Lemma size_history_completes_witness :
  completes (size_history constant_size_of_deme_at_time default_options
               family_graph).
Proof.
  apply (size_history_completes constant_size_of_deme_at_time default_options
           family_graph).
  - simpl. discriminate.
  - right. simpl. lia.
  - simpl. lra.
  - intros deme Hd epoch He. simpl in Hd.
    destruct Hd as [<- | [<- | []]]; simpl in He.
    + destruct He as [<- | [<- | []]].
      * apply valid_root_epoch. lra.
      * apply valid_recent_epoch; [right; reflexivity | lra | lra].
    + destruct He as [<- | []]. exact valid_child_epoch.
  - intros deme Hd a Ha. simpl in Hd.
    destruct Hd as [<- | [<- | []]]; simpl in Ha; [destruct Ha |].
    destruct Ha as [<- | []].
    exists (two_epoch_deme (recent_epoch 1000 2000 "exponential")), 1000.
    split; reflexivity.
Defined.

Lemma size_history_one_line_per_epoch_witness :
  count_calls is_solid_line
    [plot [Finite 113; Finite 0] [1000; 1000]
       (plot_kwargs_of (root_graph 0) "tab10" 0 (root_deme "A" 0));
     plot_marker 113 1000 ">k" (cmap_colour "tab10" 0) 10;
     set_xlim 0 113;
     spine_set_visible "top" false;
     spine_set_visible "right" false;
     set_xlabel "time ago (generations)";
     set_ylabel ("deme" ++ newline ++ "size");
     tight_layout]
  = epoch_count (root_graph 0).
Proof.
  apply (size_history_one_line_per_epoch constant_size_of_deme_at_time
           default_options (root_graph 0)).
  exact size_history_root_graph.
Defined.

Lemma size_history_one_arrow_per_root_witness :
  count_calls is_marker
    [plot [Finite 113; Finite 0] [1000; 1000]
       (plot_kwargs_of (root_graph 0) "tab10" 0 (root_deme "A" 0));
     plot_marker 113 1000 ">k" (cmap_colour "tab10" 0) 10;
     set_xlim 0 113;
     spine_set_visible "top" false;
     spine_set_visible "right" false;
     set_xlabel "time ago (generations)";
     set_ylabel ("deme" ++ newline ++ "size");
     tight_layout]
  = root_count (root_graph 0).
Proof.
  apply (size_history_one_arrow_per_root constant_size_of_deme_at_time
           default_options (root_graph 0)).
  exact size_history_root_graph.
Defined.

(** ** The stacking of the lines *)

Lemma deme_linewidth_range (j : nat) : (1 <= deme_linewidth j <= 8)%Z.
Proof.
  unfold deme_linewidth, linewidths. cbn [List.length].
  pose proof (Nat.mod_upper_bound j 4) as H.
  destruct (j mod 4)%nat as [| [| [| [| n]]]]; simpl; lia.
Qed.

Lemma deme_linewidth_period (j : nat) :
  deme_linewidth (j + 4) = deme_linewidth j.
Proof.
  unfold deme_linewidth, linewidths. cbn [List.length].
  replace ((j + 4) mod 4)%nat with (j mod 4)%nat; [reflexivity |].
  rewrite <- (Nat.mul_1_l 4) at 2. rewrite Nat.Div0.mod_add. reflexivity.
Qed.

(** Every line and every connector is stacked strictly below [z_top], the
    level of the arrowheads and of the legend, and above the number of
    demes; a thinner line is stacked above a thicker one; the widths repeat
    with period 4. *)
Theorem zorder_below_top (g : Graph) (cm : Colormap) (j j' : nat)
  (deme deme' : Deme) :
  (Z.of_nat (List.length (demes g)) < zorder (plot_kwargs_of g cm j deme)
     < z_top g)%Z /\
  zorder (discontinuity_kwargs_of g cm j) = zorder (plot_kwargs_of g cm j deme) /\
  ((linewidth (plot_kwargs_of g cm j deme)
      < linewidth (plot_kwargs_of g cm j' deme'))%Z ->
   (zorder (plot_kwargs_of g cm j' deme')
      < zorder (plot_kwargs_of g cm j deme))%Z) /\
  linewidth (plot_kwargs_of g cm (j + 4) deme)
    = linewidth (plot_kwargs_of g cm j deme).
Proof.
  pose proof (deme_linewidth_range j) as Hj.
  assert (Hm : fold_left Z.max linewidths 0%Z = 8%Z) by reflexivity.
  unfold plot_kwargs_of, discontinuity_kwargs_of, z_top.
  cbn [zorder linewidth]. rewrite Hm.
  split; [lia |]. split; [reflexivity |]. split; [lia |].
  apply deme_linewidth_period.
Qed.

(** ** The axes of a run that completes *)

Lemma for_enumerate_calls_In {A : Type} (body : nat -> A -> Draw unit)
  (l : list A) (k : nat) (c : DrawCall) :
  In c (calls (for_enumerate body k l)) ->
  exists i x, In x l /\ In c (calls (body i x)).
Proof.
  revert k. induction l as [| y l IH]; intro k; cbn [for_enumerate];
    [intros [] |].
  intro H. apply calls_dbind_In in H. destruct H as [H | [[] H]].
  - exists k, y. split; [left; reflexivity | exact H].
  - destruct (IH _ H) as [i [x [Hx Hc]]].
    exists i, x. split; [right; exact Hx | exact Hc].
Qed.

Lemma plot_epoch_calls_not_axes (o : Options) (g : Graph) (cm : Colormap)
  (inf_t : R) (j : nat) (deme : Deme) (k : nat) (epoch : Epoch)
  (c : DrawCall) :
  In c (calls (plot_epoch o g cm inf_t j deme k epoch)) ->
  is_axes_call c = false.
Proof.
  unfold plot_epoch. intro H.
  apply calls_dbind_In in H. destruct H as [[] | [xy H]].
  apply calls_dbind_In in H. destruct H as [[<- | []] | [[] H]];
    [reflexivity |].
  apply calls_dbind_In in H. destruct H as [H | [[] H]].
  - apply plot_discontinuity_calls in H. destruct H as [x [y ->]].
    reflexivity.
  - destruct (annotate_epochs o); [| destruct H].
    apply annotate_epoch_calls in H.
    destruct H as [? [? [? [? [? [? ->]]]]]]. reflexivity.
Qed.

Lemma arrange_axes_eq (o : Options) (g : Graph) (cm : Colormap) (inf_t : R) :
  arrange_axes o g cm inf_t = (Ok tt, axes_calls o g cm inf_t).
Proof.
  unfold arrange_axes, axes_calls.
  destruct (1 <? List.length (demes g))%nat; destruct (title o);
    destruct (invert_x o); destruct (log_x o); destruct (log_y o);
    reflexivity.
Qed.

Lemma legend_handles_nth (g : Graph) (cm : Colormap) (j : nat) (deme : Deme) :
  nth_error (demes g) j = Some deme ->
  nth_error (legend_handles g cm) j = Some (plot_kwargs_of g cm j deme).
Proof.
  unfold legend_handles.
  assert (H : forall (l : list Deme) (k i : nat) (d : Deme),
            nth_error l i = Some d ->
            nth_error (combine (seq k (List.length l)) l) i
            = Some ((k + i)%nat, d)).
  { induction l as [| y l IH]; intros k i d Hi; [destruct i; discriminate |].
    destruct i as [| i]; simpl in *.
    - injection Hi as ->. rewrite Nat.add_0_r. reflexivity.
    - rewrite (IH (S k) i d Hi). rewrite Nat.add_succ_r. reflexivity. }
  intro Hj. rewrite nth_error_map, (H _ O j deme Hj). reflexivity.
Qed.

Lemma legend_handles_length (g : Graph) (cm : Colormap) :
  List.length (legend_handles g cm) = List.length (demes g).
Proof.
  unfold legend_handles.
  rewrite length_map, length_combine, length_seq. apply Nat.min_id.
Qed.

Section Arrangement.

Variable size_of_deme_at_time : Deme -> time -> result R.

Lemma plot_deme_calls_not_axes (o : Options) (g : Graph) (cm : Colormap)
  (inf_t : R) (j : nat) (deme : Deme) (c : DrawCall) :
  In c (calls (plot_deme size_of_deme_at_time o g cm inf_t j deme)) ->
  is_axes_call c = false.
Proof.
  unfold plot_deme. intro H.
  apply calls_dbind_In in H. destruct H as [H | [[] H]].
  - apply for_enumerate_calls_In in H. destruct H as [k [epoch [_ H]]].
    apply (plot_epoch_calls_not_axes _ _ _ _ _ _ _ _ _ H).
  - apply calls_dbind_In in H. destruct H as [H | [[] H]].
    + rewrite plot_inf_arrow_spec in H. simpl in H.
      destruct (deme_start_time deme); [destruct H |].
      destruct H as [<- | H]; [reflexivity |].
      destruct (inf_label o); [| destruct H].
      destruct H as [<- | []]. reflexivity.
    + apply plot_ancestors_calls in H. destruct H as [anc_N [-> _]].
      reflexivity.
Qed.

(** The drawing of a run that completes, and then its axes. *)
Lemma size_history_Ok_split (o : Options) (g : Graph) (w : list DrawCall) :
  size_history size_of_deme_at_time o g = (Ok tt, w) ->
  exists cm inf_t wl,
    choose_cmap o g = Ok cm /\
    inf_start_time g (inf_ratio o) (log_x o) = Ok inf_t /\
    w = (wl ++ axes_calls o g cm inf_t)%list /\
    forall c, In c wl -> is_axes_call c = false.
Proof.
  intro H. apply size_history_Ok_parts in H.
  destruct H as [cm [inf_t [wl [wx [Hcm [Hinf [Hl [Hx ->]]]]]]]].
  rewrite arrange_axes_eq in Hx. injection Hx as <-.
  exists cm, inf_t, wl. repeat split; try assumption.
  intros c Hc.
  assert (Hc' : In c (calls (for_enumerate
                  (plot_deme size_of_deme_at_time o g cm inf_t) 0 (demes g))))
    by (rewrite Hl; exact Hc).
  apply for_enumerate_calls_In in Hc'. destruct Hc' as [j [deme [_ Hc']]].
  apply (plot_deme_calls_not_axes _ _ _ _ _ _ _ Hc').
Qed.

(** In a run that completes the axes are arranged after all the drawing, and
    in one way: the legend (with more than one deme), the title (when
    given), the limits of the time axis from 0, or from 1 on a logarithmic
    axis, to the horizon, the top spine hidden, the right spine hidden or,
    on an inverted axis, the left one with the axis inverted and the ticks
    on the right, the two labels, a logarithmic scale for each axis that
    asks for it and for no other, and the layout. *)
Theorem size_history_axes_last (o : Options) (g : Graph) (w : list DrawCall) :
  size_history size_of_deme_at_time o g = (Ok tt, w) ->
  exists cm inf_t wl,
    choose_cmap o g = Ok cm /\
    inf_start_time g (inf_ratio o) (log_x o) = Ok inf_t /\
    w = (wl ++ axes_calls o g cm inf_t)%list /\
    filter is_axes_call wl = [] /\
    filter is_axes_call w = axes_calls o g cm inf_t.
Proof.
  intro H. destruct (size_history_Ok_split o g w H)
    as [cm [inf_t [wl [Hcm [Hinf [-> Hwl]]]]]].
  exists cm, inf_t, wl.
  assert (Hnone : filter is_axes_call wl = []).
  { clear - Hwl. induction wl as [| c wl IH]; [reflexivity |].
    simpl. rewrite (Hwl c) by (left; reflexivity).
    apply IH. intros c' Hc'. apply Hwl. right. exact Hc'. }
  repeat split; try assumption.
  rewrite filter_app, Hnone. cbn [app].
  unfold axes_calls.
  destruct (1 <? List.length (demes g))%nat; destruct (title o);
    destruct (invert_x o); destruct (log_x o); destruct (log_y o);
    reflexivity.
Qed.

(** In a run that completes, the legend is there exactly when the graph has
    more than one deme; it then has at least one column, and one entry per
    deme, in the order of the demes, each with the keyword arguments of the
    lines of its deme. *)
Theorem size_history_legend (o : Options) (g : Graph) (cm : Colormap)
  (w : list DrawCall) :
  size_history size_of_deme_at_time o g = (Ok tt, w) ->
  choose_cmap o g = Ok cm ->
  ((1 < List.length (demes g))%nat ->
     In (legend (legend_handles g cm) (List.length (demes g) / 2) (z_top g)) w
     /\ (1 <= List.length (demes g) / 2)%nat) /\
  ((List.length (demes g) <= 1)%nat ->
     forall handles ncol z, ~ In (legend handles ncol z) w) /\
  List.length (legend_handles g cm) = List.length (demes g) /\
  (forall j deme, nth_error (demes g) j = Some deme ->
     nth_error (legend_handles g cm) j = Some (plot_kwargs_of g cm j deme)).
Proof.
  intros H Hcm. destruct (size_history_Ok_split o g w H)
    as [cm' [inf_t [wl [Hcm' [_ [-> Hwl]]]]]].
  rewrite Hcm in Hcm'. injection Hcm' as <-.
  split; [| split; [| split]].
  - intro Hn. split.
    + apply in_or_app. right. unfold axes_calls.
      apply Nat.ltb_lt in Hn. rewrite Hn. left. reflexivity.
    + apply (Nat.div_le_lower_bound _ 2 1); lia.
  - intros Hn handles ncol z Hin. apply in_app_or in Hin.
    destruct Hin as [Hin | Hin].
    + apply Hwl in Hin. discriminate Hin.
    + unfold axes_calls in Hin.
      assert (Hlt : (1 <? List.length (demes g))%nat = false)
        by (apply Nat.ltb_ge; exact Hn).
      rewrite Hlt in Hin.
      destruct (title o); destruct (invert_x o); destruct (log_x o);
        destruct (log_y o); simpl in Hin;
        repeat (destruct Hin as [Hin | Hin]; [discriminate Hin |]);
        destruct Hin.
  - apply legend_handles_length.
  - apply legend_handles_nth.
Qed.

End Arrangement.

Lemma pair_graph_horizon :
  inf_start_time pair_graph (1 / 10) false = Ok 113.
Proof.
  apply inf_start_time_zero. simpl. rewrite Rmax_left by lra. reflexivity.
Qed.

Lemma size_history_pair_graph :
  size_history constant_size_of_deme_at_time default_options pair_graph
  = (Ok tt, pair_graph_calls).
Proof.
  rewrite (size_history_with_cmap _ _ _ "tab10") by reflexivity.
  unfold draw_with.
  change (inf_start_time pair_graph (inf_ratio default_options)
            (log_x default_options))
    with (inf_start_time pair_graph (1 / 10) false).
  rewrite pair_graph_horizon, dbind_lift_Ok.
  cbn -[Rdiv Rminus legend_handles].
  rewrite !plot_end_time_linear by reflexivity. reflexivity.
Qed.

Lemma size_history_axes_last_witness :
  exists cm inf_t wl,
    choose_cmap default_options pair_graph = Ok cm /\
    inf_start_time pair_graph (inf_ratio default_options)
      (log_x default_options) = Ok inf_t /\
    pair_graph_calls = (wl ++ axes_calls default_options pair_graph cm inf_t)%list /\
    filter is_axes_call wl = [] /\
    filter is_axes_call pair_graph_calls
      = axes_calls default_options pair_graph cm inf_t.
Proof.
  apply (size_history_axes_last constant_size_of_deme_at_time default_options
           pair_graph pair_graph_calls).
  exact size_history_pair_graph.
Defined.

Lemma size_history_legend_witness :
  ((1 < List.length (demes pair_graph))%nat ->
     In (legend (legend_handles pair_graph "tab10")
           (List.length (demes pair_graph) / 2) (z_top pair_graph))
        pair_graph_calls
     /\ (1 <= List.length (demes pair_graph) / 2)%nat) /\
  ((List.length (demes pair_graph) <= 1)%nat ->
     forall handles ncol z, ~ In (legend handles ncol z) pair_graph_calls) /\
  List.length (legend_handles pair_graph "tab10")
    = List.length (demes pair_graph) /\
  (forall j deme, nth_error (demes pair_graph) j = Some deme ->
     nth_error (legend_handles pair_graph "tab10") j
       = Some (plot_kwargs_of pair_graph "tab10" j deme)).
Proof.
  apply (size_history_legend constant_size_of_deme_at_time default_options
           pair_graph "tab10" pair_graph_calls).
  - exact size_history_pair_graph.
  - reflexivity.
Defined.

(** ** Ancestors *)

Lemma find_none_intro {A : Type} (f : A -> bool) (l : list A) :
  (forall x, In x l -> f x = false) -> find f l = None.
Proof.
  induction l as [| y l IH]; intro H; [reflexivity |].
  simpl. rewrite (H y) by (left; reflexivity).
  apply IH. intros x Hx. apply H. right. exact Hx.
Qed.

(** [graph[key]] fails when no deme of the graph has that name. *)
Lemma graph_getitem_missing (g : Graph) (key : string) :
  (forall deme, In deme (demes g) -> deme_id deme <> key) ->
  graph_getitem g key = Err (KeyError key).
Proof.
  intro H. unfold graph_getitem. rewrite find_none_intro; [reflexivity |].
  intros d Hd. apply String.eqb_neq. apply H. exact Hd.
Qed.

Section Ancestors.

Variable size_of_deme_at_time : Deme -> time -> result R.

(** When the ancestor loop of a deme completes, the dotted vertical line at
    the start time of the deme from a size [anc_N] to the start size of the
    deme is drawn if and only if [anc_N] differs from that start size and is
    the size the helper gives for one of the ancestors of the deme. *)
Theorem plot_ancestors_connector_iff (g : Graph) (dk : LineKwargs)
  (deme : Deme) (w : list DrawCall) (anc_N : R) :
  plot_ancestors size_of_deme_at_time g dk deme = (Ok tt, w) ->
  (In (plot [deme_start_time deme; deme_start_time deme]
            [anc_N; start_size (epoch0 deme)] dk) w
   <-> anc_N <> start_size (epoch0 deme) /\
       exists a anc, In a (ancestors deme) /\
         graph_getitem g a = Ok anc /\
         size_of_deme_at_time anc (deme_start_time deme) = Ok anc_N).
Proof.
  intro H. split.
  - intro Hin.
    assert (Hc : In (plot [deme_start_time deme; deme_start_time deme]
                          [anc_N; start_size (epoch0 deme)] dk)
                    (calls (plot_ancestors size_of_deme_at_time g dk deme)))
      by (rewrite H; exact Hin).
    unfold plot_ancestors in Hc. apply for_each_calls_In in Hc.
    destruct Hc as [a [Ha Hc]].
    destruct (graph_getitem g a) as [anc | e] eqn:Eg; [| destruct Hc].
    rewrite dbind_lift_Ok in Hc.
    destruct (size_of_deme_at_time anc (deme_start_time deme)) as [N | e]
      eqn:Es; [| destruct Hc].
    rewrite dbind_lift_Ok in Hc.
    destruct (Reqb N (start_size (epoch0 deme))) eqn:E; simpl in Hc;
      [destruct Hc |].
    destruct Hc as [Hc | []]. injection Hc as ->.
    split; [apply Reqb_neq; exact E |].
    exists a, anc. repeat split; assumption.
  - intros [Hneq [a [anc [Ha [Hg Hs]]]]].
    unfold plot_ancestors in H.
    destruct (for_each_Ok_inv _ _ _ H a Ha) as [wa [Hb Hincl]].
    rewrite Hg, dbind_lift_Ok, Hs, dbind_lift_Ok in Hb.
    apply Reqb_neq in Hneq. rewrite Hneq in Hb. simpl in Hb.
    injection Hb as <-. apply Hincl. left. reflexivity.
Qed.

(** A graph in which a deme names an ancestor that is no deme of the graph
    is never drawn to the end: [size_history] ends with an exception. *)
Theorem size_history_missing_ancestor (o : Options) (g : Graph) (deme : Deme)
  (a : string) :
  In deme (demes g) -> In a (ancestors deme) ->
  (forall d, In d (demes g) -> deme_id d <> a) ->
  exists e, outcome (size_history size_of_deme_at_time o g) = Err e.
Proof.
  intros Hd Ha Hmiss.
  destruct (size_history size_of_deme_at_time o g) as [[[] | e] w] eqn:E;
    [| exists e; reflexivity].
  exfalso. apply size_history_Ok_parts in E.
  destruct E as [cm [inf_t [wl [wx [_ [_ [Hl _]]]]]]].
  destruct (In_nth_error _ _ Hd) as [j Hj].
  destruct (for_enumerate_Ok_inv _ _ _ _ Hl j deme Hj) as [wj [Hdeme _]].
  apply plot_deme_Ok_inv in Hdeme.
  destruct Hdeme as [we [wa [wn [_ [_ [Hn _]]]]]].
  unfold plot_ancestors in Hn.
  destruct (for_each_Ok_inv _ _ _ Hn a Ha) as [wb [Hb _]].
  rewrite (graph_getitem_missing g a Hmiss) in Hb. discriminate Hb.
Qed.

End Ancestors.

Lemma plot_ancestors_child :
  plot_ancestors constant_size_of_deme_at_time family_graph
    (discontinuity_kwargs_of family_graph "tab10" 1) child_deme
  = (Ok tt,
     [plot [Finite 50; Finite 50] [1000; 500]
        (discontinuity_kwargs_of family_graph "tab10" 1)]).
Proof.
  unfold plot_ancestors. cbn -[discontinuity_kwargs_of Reqb].
  assert (H : Reqb 1000 500 = false) by (apply Reqb_neq; lra).
  rewrite H. reflexivity.
Qed.

Lemma plot_ancestors_connector_iff_witness :
  In (plot [deme_start_time child_deme; deme_start_time child_deme]
           [1000; start_size (epoch0 child_deme)]
           (discontinuity_kwargs_of family_graph "tab10" 1))
     [plot [Finite 50; Finite 50] [1000; 500]
        (discontinuity_kwargs_of family_graph "tab10" 1)]
  <-> 1000 <> start_size (epoch0 child_deme) /\
      exists a anc, In a (ancestors child_deme) /\
        graph_getitem family_graph a = Ok anc /\
        constant_size_of_deme_at_time anc (deme_start_time child_deme)
          = Ok 1000.
Proof.
  apply (plot_ancestors_connector_iff constant_size_of_deme_at_time
           family_graph (discontinuity_kwargs_of family_graph "tab10" 1)
           child_deme).
  exact plot_ancestors_child.
Defined.

Lemma size_history_missing_ancestor_witness :
  exists e,
    outcome (size_history constant_size_of_deme_at_time default_options
               orphan_graph) = Err e.
Proof.
  apply (size_history_missing_ancestor constant_size_of_deme_at_time
           default_options orphan_graph child_deme "YRI").
  - simpl. left. reflexivity.
  - simpl. left. reflexivity.
  - intros d Hd. simpl in Hd. destruct Hd as [<- | []]. simpl. discriminate.
Defined.

(** ** The curve of a deme is connected *)

Lemma exp_rate_Ok_inv (epoch : Epoch) (r : R) :
  exp_rate epoch = Ok r ->
  start_size epoch <> 0 /\ 0 < end_size epoch / start_size epoch /\
  r = ln (end_size epoch / start_size epoch).
Proof.
  unfold exp_rate, py_div, np_log.
  destruct (Reqb (start_size epoch) 0) eqn:E; [discriminate |].
  cbn [rbind].
  destruct (Rlt_dec 0 (end_size epoch / start_size epoch)) as [L | L];
    [| discriminate].
  intro H. injection H as <-.
  split; [apply Reqb_neq; exact E | split; [exact L | reflexivity]].
Qed.

(** The first and the last point of the line of an epoch. *)
Lemma epoch_xy_endpoints (o : Options) (inf_t : R) (k : nat) (epoch : Epoch)
  (x y : list R) :
  epoch_xy o inf_t k epoch = Ok (x, y) ->
  (2 <= num_exp_points o)%nat ->
  nth 0 x 0 = plot_start_time inf_t epoch /\
  nth 0 y 0 = start_size epoch /\
  last x 0 = plot_end_time o epoch /\
  last y 0 = end_size epoch.
Proof.
  intros H Hn.
  destruct (epoch_xy_Ok_inv _ _ _ _ _ _ H)
    as [[_ [-> ->]] | [_ [r [Hr [-> ->]]]]].
  - repeat split.
  - destruct (exp_rate_Ok_inv epoch r Hr) as [Hs [Hq ->]].
    split; [apply linspace_first; lia |].
    split.
    + rewrite exp_size_nth by lia. rewrite linspace_first by lia.
      unfold exp_size. rewrite Rmult_0_r, exp_0. lra.
    + split.
      * rewrite last_nth, linspace_length. apply linspace_last. exact Hn.
      * rewrite last_nth, length_map, linspace_length.
        rewrite exp_size_nth by lia. rewrite linspace_last by exact Hn.
        unfold exp_size. rewrite Rmult_1_r, (exp_ln _ Hq). field. exact Hs.
Qed.

(** Where an epoch starts at the time at which the epoch before it ends, the
    lines of the two are joined: the connector runs from the last point of
    the first line to the first point of the second, and when the sizes
    agree, so that no connector is drawn, the two points are one. *)
Theorem epochs_joined (o : Options) (g : Graph) (cm : Colormap) (inf_t : R)
  (j k : nat) (prev epoch : Epoch) (xp yp x y : list R) :
  epoch_xy o inf_t k prev = Ok (xp, yp) ->
  epoch_xy o inf_t (S k) epoch = Ok (x, y) ->
  (2 <= num_exp_points o)%nat ->
  start_time epoch = Finite (end_time prev) ->
  end_time prev <> 0 ->
  connector g cm j prev epoch
    = plot [Finite (last xp 0); Finite (nth 0 x 0)] [last yp 0; nth 0 y 0]
        (discontinuity_kwargs_of g cm j) /\
  (end_size prev = start_size epoch ->
     (last xp 0, last yp 0) = (nth 0 x 0, nth 0 y 0)).
Proof.
  intros Hp He Hn Hst Hend.
  destruct (epoch_xy_endpoints o inf_t k prev xp yp Hp Hn)
    as [_ [_ [Hxl Hyl]]].
  destruct (epoch_xy_endpoints o inf_t (S k) epoch x y He Hn)
    as [Hx0 [Hy0 _]].
  rewrite Hxl, Hyl, Hx0, Hy0.
  rewrite (plot_end_time_nonzero o prev Hend).
  unfold plot_start_time. rewrite Hst.
  split; [unfold connector; rewrite Hst; reflexivity |].
  intros ->. reflexivity.
Qed.

Lemma epochs_joined_witness :
  connector (two_epoch_graph (recent_epoch 2000 2000 "constant")) "tab10" 0
    (root_epoch 100) (recent_epoch 2000 2000 "constant")
    = plot [Finite (last [113; 100] 0); Finite (nth 0 [100; 0] 0)]
        [last [1000; 1000] 0; nth 0 [2000; 2000] 0]
        (discontinuity_kwargs_of
           (two_epoch_graph (recent_epoch 2000 2000 "constant")) "tab10" 0) /\
  (end_size (root_epoch 100) = start_size (recent_epoch 2000 2000 "constant") ->
     (last [113; 100] 0, last [1000; 1000] 0)
     = (nth 0 [100; 0] 0, nth 0 [2000; 2000] 0)).
Proof.
  apply (epochs_joined default_options
           (two_epoch_graph (recent_epoch 2000 2000 "constant")) "tab10" 113
           0 0 (root_epoch 100) (recent_epoch 2000 2000 "constant")).
  - rewrite epoch_xy_constant by reflexivity.
    rewrite plot_end_time_linear by reflexivity. reflexivity.
  - rewrite epoch_xy_constant by reflexivity.
    rewrite plot_end_time_linear by reflexivity. reflexivity.
  - simpl. lia.
  - reflexivity.
  - simpl. lra.
Defined.

(** The arrowhead of a deme that starts at infinity sits on the first point
    of the line of its first epoch. *)
Theorem arrow_at_line_start (o : Options) (g : Graph) (inf_t : R)
  (colour : Colour) (deme : Deme) (x y : list R) :
  deme_start_time deme = Infinity ->
  start_time (epoch0 deme) = Infinity ->
  epoch_xy o inf_t 0 (epoch0 deme) = Ok (x, y) ->
  (2 <= num_exp_points o)%nat ->
  hd_error (calls (plot_inf_arrow o g inf_t colour deme))
  = Some (plot_marker (nth 0 x 0) (nth 0 y 0)
            (if invert_x o then "<k" else ">k") colour (z_top g)).
Proof.
  intros Hd Hs Hxy Hn.
  destruct (epoch_xy_endpoints o inf_t 0 (epoch0 deme) x y Hxy Hn)
    as [Hx0 [Hy0 _]].
  rewrite Hx0, Hy0. unfold plot_start_time. rewrite Hs.
  rewrite plot_inf_arrow_spec, Hd. reflexivity.
Qed.

Lemma arrow_at_line_start_witness :
  hd_error (calls (plot_inf_arrow default_options (root_graph 0) 113
                     (cmap_colour "tab10" 0) (root_deme "A" 0)))
  = Some (plot_marker (nth 0 [113; 0] 0) (nth 0 [1000; 1000] 0)
            (if invert_x default_options then "<k" else ">k")
            (cmap_colour "tab10" 0) (z_top (root_graph 0))).
Proof.
  apply (arrow_at_line_start default_options (root_graph 0) 113
           (cmap_colour "tab10" 0) (root_deme "A" 0)).
  - reflexivity.
  - reflexivity.
  - rewrite epoch_xy_constant by reflexivity.
    rewrite plot_end_time_linear by reflexivity. reflexivity.
  - simpl. lia.
Defined.
